(** * Bookings controller (apps/api/v2, ee/bookings): a shallow embedding

The controller sits in front of the booking engine.  It resolves the
owner of a bearer credential, resolves the OAuth client ("partner")
parameters, assembles the request handed to the engine, fires the billing
calls after a successful engine call and turns every failure into an
[HttpException].

The embedding follows bookings.controller.ts method by method.  Calls to
collaborators are recorded in a trace, the module-level object
[DEFAULT_PLATFORM_PARAMS] is a mutable cell threaded through every
request, and exceptions are explicit results. *)

From Stdlib Require Import ZArith Lia Bool Ascii String.
From stdpp Require Import base option list strings gmap.

Local Open Scope string_scope.
Local Open Scope list_scope.
Local Open Scope Z_scope.

(** ** JavaScript values used by the controller *)

Module JS.

(** [x ?? d] on a possibly undefined/null value. *)
Definition nullish {A} (x : option A) (d : A) : A := default d x.

(** Truthiness of [number | undefined]: undefined and 0 are falsy. *)
Definition truthyNum (x : option Z) : bool :=
  match x with
  | Some n => negb (n =? 0)
  | None => false
  end.

(** Truthiness of [string | undefined]: undefined and the empty string are
    falsy. *)
Definition truthyStr (x : option string) : bool :=
  match x with
  | Some EmptyString => false
  | Some (String _ _) => true
  | None => false
  end.

(** The operand of a truthiness test, when the test succeeds: the value a
    guarded branch goes on to use. *)
Definition whenTruthyNum (x : option Z) : option Z :=
  if truthyNum x then x else None.

Definition whenTruthyStr (x : option string) : option string :=
  if truthyStr x then x else None.

(** [s.startsWith(p)] *)
Fixpoint startsWith (p s : string) : bool :=
  match p, s with
  | EmptyString, _ => true
  | String a p', String b s' => if Ascii.eqb a b then startsWith p' s' else false
  | String _ _, EmptyString => false
  end.

(** The suffix of [s] after its first [n] code units. *)
Fixpoint drop (n : nat) (s : string) : string :=
  match n, s with
  | O, _ => s
  | S n', String _ s' => drop n' s'
  | S _, EmptyString => EmptyString
  end.

(** [s.replace(pat, "")] with a string pattern: only the first (leftmost)
    occurrence of [pat] is removed, wherever it stands in [s]. *)
Fixpoint removeFirst (pat s : string) : string :=
  if startsWith pat s then drop (String.length pat) s
  else match s with
       | EmptyString => EmptyString
       | String c s' => String c (removeFirst pat s')
       end.

(** A JavaScript number as far as the controller is concerned: the result of
    [parseInt] is NaN, an infinity, or a finite double whose value is an
    integer.  [Num z] is the double of value [z]; only integers that a double
    represents occur ([toDouble] rounds), and -0 is not kept apart from 0. *)
Inductive number :=
| NaN
| Num (z : Z)
| Infinity
| NegInfinity.

(** The double nearest to a positive integer [a], ties to the even
    significand: 53 bits are kept. *)
Definition roundMagnitude (a : Z) : Z :=
  if a <? 2 ^ 53 then a
  else
    let shift := Z.log2 a - 52 in
    let q := a / 2 ^ shift in
    let r := a mod 2 ^ shift in
    let half := 2 ^ (shift - 1) in
    let q := if (half <? r) || ((r =? half) && Z.odd q) then q + 1 else q in
    q * 2 ^ shift.

(** The Number value of a mathematical integer: the nearest double, an
    infinity from 2^1024 on. *)
Definition toDouble (z : Z) : number :=
  let m := roundMagnitude (Z.abs z) in
  if 2 ^ 1024 <=? m then (if z <? 0 then NegInfinity else Infinity)
  else Num (Z.sgn z * m).

(** StrWhiteSpaceChar, on code units below 256. *)
Definition isWhiteSpace (c : ascii) : bool :=
  let n := Ascii.N_of_ascii c in
  ((9 <=? n) && (n <=? 13) || (n =? 32) || (n =? 160))%N.

Fixpoint trimStart (s : string) : string :=
  match s with
  | String c s' => if isWhiteSpace c then trimStart s' else s
  | EmptyString => EmptyString
  end.

(** Value of a code unit as a digit: 0-9, then a-z / A-Z for 10..35. *)
Definition digitValue (c : ascii) : option Z :=
  let n := Z.of_N (Ascii.N_of_ascii c) in
  if (48 <=? n) && (n <=? 57) then Some (n - 48)
  else if (97 <=? n) && (n <=? 122) then Some (n - 87)
  else if (65 <=? n) && (n <=? 90) then Some (n - 55)
  else None.

(** The longest prefix of [s] made of radix-[R] digits, as digit values. *)
Fixpoint takeDigits (R : Z) (s : string) : list Z :=
  match s with
  | String c s' =>
      match digitValue c with
      | Some d => if d <? R then d :: takeDigits R s' else []
      | None => []
      end
  | EmptyString => []
  end.

Definition digitsValue (R : Z) (ds : list Z) : Z :=
  fold_left (fun acc d => acc * R + d) ds 0.

(** An optional sign in front of the numeral. *)
Definition splitSign (s : string) : Z * string :=
  match s with
  | String "-" r => (-1, r)
  | String "+" r => (1, r)
  | _ => (1, s)
  end.

(** With no radix argument a "0x"/"0X" prefix selects radix 16. *)
Definition splitRadix (s : string) : Z * string :=
  match s with
  | String "0" (String "x" r) => (16, r)
  | String "0" (String "X" r) => (16, r)
  | _ => (10, s)
  end.

(** [parseInt(s)] with no radix argument (ECMA-262, 19.2.5). *)
Definition parseInt (s : string) : number :=
  let '(sign, s1) := splitSign (trimStart s) in
  let '(R, s2) := splitRadix s1 in
  match takeDigits R s2 with
  | [] => NaN
  | ds => toDouble (sign * digitsValue R ds)
  end.

(** A decimal digit, 0-9. *)
Definition isDecimalDigit (c : ascii) : bool :=
  let n := Ascii.N_of_ascii c in ((48 <=? n) && (n <=? 57))%N.

Fixpoint allDecimalDigits (s : string) : bool :=
  match s with
  | EmptyString => true
  | String c s' => isDecimalDigit c && allDecimalDigits s'
  end.

(** A decimal numeral: one or more decimal digits and nothing else. *)
Definition isDecimalNumeral (s : string) : bool :=
  match s with
  | EmptyString => false
  | String _ _ => allDecimalDigits s
  end.

(** What [parseInt] looks at first: [s] without leading white space and
    without an optional sign. *)
Definition afterSign (s : string) : string := snd (splitSign (trimStart s)).

(** After white space and an optional sign, [s] does not begin with a decimal
    digit. *)
Definition noLeadingDigit (s : string) : bool :=
  match afterSign s with
  | EmptyString => true
  | String c _ => negb (isDecimalDigit c)
  end.

End JS.

(** ** Dates

    A [Date] is its time value, milliseconds since the epoch.  [getSeconds]
    and [setSeconds] work on local time.  The local time zone adjustment
    [LocalTZA t isUTC] is the offset of the zone at [t], where [t] is a UTC
    time value when [isUTC] is true and a local one when it is false
    (ECMA-262, 21.4.1).  TimeClip is left out: the dates are [new Date()]
    and a few seconds or hours around it. *)

Module Date.

Definition msPerSecond : Z := 1000.
Definition msPerMinute : Z := 60000.
Definition msPerHour : Z := 3600000.
Definition msPerDay : Z := 86400000.

Definition LocalTime (LocalTZA : Z -> bool -> Z) (t : Z) : Z :=
  t + LocalTZA t true.
Definition UTC (LocalTZA : Z -> bool -> Z) (t : Z) : Z :=
  t - LocalTZA t false.

Definition Day (t : Z) : Z := t / msPerDay.
Definition HourFromTime (t : Z) : Z := (t / msPerHour) mod 24.
Definition MinFromTime (t : Z) : Z := (t / msPerMinute) mod 60.
Definition SecFromTime (t : Z) : Z := (t / msPerSecond) mod 60.
Definition msFromTime (t : Z) : Z := t mod msPerSecond.

Definition MakeTime (hour min sec ms : Z) : Z :=
  hour * msPerHour + min * msPerMinute + sec * msPerSecond + ms.
Definition MakeDate (day time : Z) : Z := day * msPerDay + time.

(** [d.getSeconds()] *)
Definition getSeconds (LocalTZA : Z -> bool -> Z) (d : Z) : Z :=
  SecFromTime (LocalTime LocalTZA d).

(** [d.setSeconds(sec)]: the new time value of [d]. *)
Definition setSeconds (LocalTZA : Z -> bool -> Z) (d sec : Z) : Z :=
  let t := LocalTime LocalTZA d in
  UTC LocalTZA
    (MakeDate (Day t)
       (MakeTime (HourFromTime t) (MinFromTime t) sec (msFromTime t))).

End Date.

(** ** Thrown values and promises *)

(** What a collaborator can throw, and what the controller throws itself.
    [HttpError] is the engine's error class (platform-libraries); its fields
    are optional here because the controller reads them with [?.] and [??].
    [JsError] is any other [Error] instance.  [HttpException] is the NestJS
    exception the controller raises, with the message it reports and its
    status; it is an [Error] too. *)
Inductive Thrown :=
| HttpError (message : option string) (statusCode : option Z)
| JsError (message : option string)
| HttpException (response : string) (status : Z)
| NonError (value : string).

(** The message of a NestJS exception class built from [objectOrError]:
    [HttpException.createBody] takes an empty (falsy) argument for a missing
    one and uses the class's description. *)
Definition createBody (objectOrError description : string) : string :=
  match objectOrError with
  | EmptyString => description
  | String _ _ => objectOrError
  end.

(** [new InternalServerErrorException(msg)] *)
Definition InternalServerErrorException (msg : string) : Thrown :=
  HttpException (createBody msg "Internal Server Error") 500.

(** [new NotFoundException(msg)] *)
Definition NotFoundException (msg : string) : Thrown :=
  HttpException (createBody msg "Not Found") 404.

(** [err instanceof HttpError] *)
Definition instanceofHttpError (err : Thrown) : bool :=
  match err with
  | HttpError _ _ => true
  | _ => false
  end.

(** [err instanceof Error] *)
Definition instanceofError (err : Thrown) : bool :=
  match err with
  | HttpError _ _ | JsError _ | HttpException _ _ => true
  | NonError _ => false
  end.

(** [err.message] of an [Error] instance. *)
Definition errorMessage (err : Thrown) : option string :=
  match err with
  | HttpError m _ => m
  | JsError m => m
  | HttpException m _ => Some m
  | NonError _ => None
  end.

(** [err.statusCode] of an [HttpError]. *)
Definition errorStatusCode (err : Thrown) : option Z :=
  match err with
  | HttpError _ s => s
  | _ => None
  end.

(** A promise once it has settled. *)
Inductive Settled (A : Type) :=
| Resolved (a : A)
| Rejected (e : Thrown).
Arguments Resolved {A} a.
Arguments Rejected {A} e.

(** A call whose result is not awaited: it throws synchronously or hands
    back a promise. *)
Inductive Called (A : Type) :=
| Threw (e : Thrown)
| Returned (p : Settled A).
Arguments Threw {A} e.
Arguments Returned {A} p.

(** ** Data of the controller *)

(** [OAuthRequestParams] *)
Record OAuthRequestParams := {
  platformClientId : string;
  platformRescheduleUrl : string;
  platformCancelUrl : string;
  platformBookingUrl : string;
  platformBookingLocation : option string;
  arePlatformEmailsEnabled : bool
}.

(** The value [DEFAULT_PLATFORM_PARAMS] is initialised with when the module
    is loaded. *)
Definition DEFAULT_PLATFORM_PARAMS : OAuthRequestParams := {|
  platformClientId := "";
  platformCancelUrl := "";
  platformRescheduleUrl := "";
  platformBookingUrl := "";
  arePlatformEmailsEnabled := false;
  platformBookingLocation := None
|}.

(** The fields of an OAuth client record that the controller reads. *)
Record OAuthClient := {
  bookingCancelRedirectUri : option string;
  bookingRescheduleRedirectUri : option string;
  bookingRedirectUri : option string;
  areEmailsEnabled : option bool
}.

(** The field of a stored API key that the controller reads ([userId]). *)
Record ApiKey := { keyUserId : Z }.

(** The request body: the fields the controller reads or writes ([id],
    [noEmail], [orgSlug], [locationUrl]) and the rest of the payload. *)
Record Body := {
  id : option JS.number;
  noEmail : option bool;
  orgSlug : option string;
  locationUrl : option string;
  payload : string
}.

(** [BookingRequest]: the express request with its optional [userId].
    [authorization] is [req.get("Authorization")], [forceSlug] is
    [req.headers["x-cal-force-slug"]]. *)
Record BookingRequest := {
  authorization : option string;
  forceSlug : option string;
  body : Body;
  userId : option Z
}.

(** The request handed to the engine, [NextApiRequest & { userId } &
    OAuthRequestParams]: the fields [Object.assign] copied onto the request
    and the rebuilt body. *)
Record NextApiBookingRequest := {
  nextAuthorization : option string;
  nextForceSlug : option string;
  nextBody : Body;
  nextUserId : Z;
  nextParams : OAuthRequestParams
}.

(** The fields of [BookingResponse] that the controller reads. *)
Record BookingResponse := {
  bookingUserId : option Z;
  bookingUid : option string;
  bookingStartTime : option Z;
  bookingFromReschedule : option bool;
  bookingData : string
}.

(** The fields of the result of [handleInstantMeeting] that the controller
    reads ([userId], [bookingUid]). *)
Record InstantMeeting := {
  meetingUserId : option Z;
  meetingBookingUid : option string;
  meetingData : string
}.

(** The result of [handleCancelBooking]. *)
Record CancelResult := {
  cancelledBookingId : Z;
  cancelledBookingUid : string;
  onlyRemovedAttendee : bool
}.

(** The argument of [handleMarkNoShow]. *)
Record MarkNoShowArgs := {
  noShowBookingUid : string;
  noShowAttendees : option (list (string * bool));
  noShowHost : option bool;
  noShowUserId : Z
}.

(** The booking passed to [increaseUsageByUserId]. *)
Record UsageBooking := {
  usageUid : string;
  usageStartTime : Z;
  usageFromReschedule : option bool
}.

(** [ApiResponse]: the success envelope. *)
Record ApiResponse (A : Type) := {
  status : string;
  data : A
}.
Arguments status {A} _.
Arguments data {A} _.

Definition SUCCESS_STATUS : string := "success".

(** The [type] argument of [handleBookingErrors]. *)
Inductive BookingErrorType :=
| recurring
| instant
| no_show.

(** The text of a [type], as it is spliced into the message. *)
Definition typeText (t : BookingErrorType) : string :=
  match t with
  | recurring => "recurring"
  | instant => "instant"
  | no_show => "no-show"
  end.

(** ** Collaborators

    Every call to a collaborator is recorded. *)
Inductive Event :=
| LoggerError (err : Thrown)
| GetApiKeyFromHash (hash : string)
| OAuthFlowGetOwnerId (token : string)
| GetOAuthClient (clientId : string)
| HandleNewBooking (req : NextApiBookingRequest)
| HandleNewRecurringBooking (req : NextApiBookingRequest)
| HandleInstantMeeting (req : NextApiBookingRequest)
| HandleCancelBooking (req : NextApiBookingRequest)
| HandleMarkNoShow (args : MarkNoShowArgs)
| IncreaseUsageByUserId (userId : Z) (booking : UsageBooking)
| CancelUsageByBookingUid (uid : string).

(** The services injected into the controller, the engine functions it
    imports, and the clock.  An awaited call is given by the way its promise
    settles (a synchronous throw inside [await f(..)] is caught like a
    rejection); [oAuthFlowGetOwnerId] is returned without [await], so the
    model keeps apart a synchronous throw and a rejected promise. *)
Record Env := {
  config : gmap string string;
  hashAPIKey : string -> string;
  getApiKeyFromHash : string -> Settled (option ApiKey);
  oAuthFlowGetOwnerId : string -> Called (option Z);
  getOAuthClient : string -> Settled (option OAuthClient);
  handleNewBooking : NextApiBookingRequest -> Settled BookingResponse;
  handleNewRecurringBooking : NextApiBookingRequest -> Settled (list BookingResponse);
  handleInstantMeeting : NextApiBookingRequest -> Settled InstantMeeting;
  handleCancelBooking : NextApiBookingRequest -> Settled CancelResult;
  handleMarkNoShow : MarkNoShowArgs -> Settled string;
  increaseUsageByUserId : Z -> UsageBooking -> Settled unit;
  cancelUsageByBookingUid : string -> Settled unit;
  newDate : Z;
  LocalTZA : Z -> bool -> Z
}.

(** Modelled from the spec: [isApiKey] of @/lib/api-key, which is not among
    the sources.  A credential "matches the static-API-key shape" when it
    "begins with keyPrefix". *)
Definition isApiKey (authString prefix : string) : bool :=
  JS.startsWith prefix authString.

(** Modelled from the spec: [stripApiKey] of @/lib/api-key, which is not
    among the sources: "strip the prefix".  The prefix is optional at the call
    site; without one the conventional "cal_" is stripped, the fallback the
    call site of [isApiKey] uses. *)
Definition stripApiKey (apiKey : string) (prefix : option string) : string :=
  let p := JS.nullish prefix "cal_" in
  if JS.startsWith p apiKey then JS.drop (String.length p) apiKey else apiKey.

(** ** The effects of a handler

    A computation reads and writes the module-level object
    [DEFAULT_PLATFORM_PARAMS], records the calls it makes, and returns or
    throws. *)

Inductive Result (A : Type) :=
| Returns (a : A)
| Throws (e : Thrown).
Arguments Returns {A} a.
Arguments Throws {A} e.

Definition M (A : Type) : Type :=
  OAuthRequestParams -> Result A * OAuthRequestParams * list Event.

Definition ret {A} (a : A) : M A := fun st => (Returns a, st, []).

Definition throw {A} (e : Thrown) : M A := fun st => (Throws e, st, []).

Definition bind {A B} (m : M A) (k : A -> M B) : M B := fun st =>
  match m st with
  | (Returns a, st1, evs1) =>
      let '(r, st2, evs2) := k a st1 in (r, st2, evs1 ++ evs2)
  | (Throws e, st1, evs1) => (Throws e, st1, evs1)
  end.

Notation "x <- c1 ;; c2" := (bind c1 (fun x => c2))
  (at level 100, c1 at next level, right associativity).
Notation "c1 ;; c2" := (bind c1 (fun _ => c2))
  (at level 100, right associativity).

(** [try { m } catch (err) { h err }] *)
Definition tryCatch {A} (m : M A) (h : Thrown -> M A) : M A := fun st =>
  match m st with
  | (Returns a, st1, evs1) => (Returns a, st1, evs1)
  | (Throws e, st1, evs1) =>
      let '(r, st2, evs2) := h e st1 in (r, st2, evs1 ++ evs2)
  end.

Definition emit (ev : Event) : M unit := fun st => (Returns tt, st, [ev]).

(** [await p] *)
Definition await {A} (p : Settled A) : M A :=
  match p with
  | Resolved a => ret a
  | Rejected e => throw e
  end.

(** The value an async function was left with by [return v]: a promise
    returned without [await] is adopted, so its rejection becomes the
    function's own, outside any [try] the [return] stood in. *)
Definition adopt {A} (p : Settled A) : M A := await p.

(** A call made inside a callback nobody awaits ([forEach(async ..)]): the
    call is issued, its outcome is dropped. *)
Definition detached {A} (m : M A) : M unit := fun st =>
  let '(_, st1, evs1) := m st in (Returns tt, st1, evs1).

(** Reading the fields of [DEFAULT_PLATFORM_PARAMS]. *)
Definition readDefaults : M OAuthRequestParams := fun st => (Returns st, st, []).

(** Assigning to fields of [DEFAULT_PLATFORM_PARAMS]. *)
Definition writeDefaults (f : OAuthRequestParams -> OAuthRequestParams) : M unit :=
  fun st => (Returns tt, f st, []).

(** The three components of a run. *)
Definition outcome {A} (r : Result A * OAuthRequestParams * list Event) : Result A :=
  fst (fst r).
Definition store {A} (r : Result A * OAuthRequestParams * list Event) : OAuthRequestParams :=
  snd (fst r).
Definition trace {A} (r : Result A * OAuthRequestParams * list Event) : list Event :=
  snd r.

(** ** The controller *)

(** [handleBookingErrors]: the message used when the error has none. *)
Definition errMsg (type : option BookingErrorType) : string :=
  match type with
  | Some no_show => "Error while marking no-show."
  | _ =>
      "Error while creating "
      +:+ match type with
          | Some t => typeText t +:+ " "
          | None => ""
          end
      +:+ "booking."
  end.

(** [handleBookingErrors(err, type)] *)
Definition handleBookingErrors (err : Thrown) (type : option BookingErrorType)
  : M unit :=
  if instanceofHttpError err then
    throw (HttpException (JS.nullish (errorMessage err) (errMsg type))
             (JS.nullish (errorStatusCode err) 500))
  else if instanceofError err then
    throw (InternalServerErrorException
             (JS.nullish (errorMessage err) (errMsg type)))
  else
    throw (InternalServerErrorException (errMsg type)).

(** [getOwnerId(req)].  The [try] block yields the value of its [return]
    statement; the access-token branch returns the promise of
    [oAuthFlowService.getOwnerId] as it is, so only a synchronous throw of that
    call is inside the [try]. *)
Definition getOwnerId (env : Env) (req : BookingRequest) : M (option Z) :=
  p <- tryCatch
         (let bearerToken := JS.removeFirst "Bearer " <$> authorization req in
          match JS.whenTruthyStr bearerToken with
          | Some bearerToken =>
              if isApiKey bearerToken
                   (JS.nullish (config env !! "api.apiKeyPrefix") "cal_")
              then
                let strippedApiKey :=
                  stripApiKey bearerToken (config env !! "api.keyPrefix") in
                let apiKeyHash := hashAPIKey env strippedApiKey in
                emit (GetApiKeyFromHash apiKeyHash) ;;
                keyData <- await (getApiKeyFromHash env apiKeyHash) ;;
                ret (Resolved (keyUserId <$> keyData))
              else
                emit (OAuthFlowGetOwnerId bearerToken) ;;
                match oAuthFlowGetOwnerId env bearerToken with
                | Threw e => throw e
                | Returned promise => ret promise
                end
          | None => ret (Resolved None)
          end)
         (fun err => emit (LoggerError err) ;; ret (Resolved None)) ;;
  adopt p.

(** The assignments [getOAuthClientsParams] makes to [res] when the client
    exists. *)
Definition assignClient (clientId : string) (client : OAuthClient)
    (res : OAuthRequestParams) : OAuthRequestParams := {|
  platformClientId := clientId;
  platformCancelUrl := JS.nullish (bookingCancelRedirectUri client) "";
  platformRescheduleUrl := JS.nullish (bookingRescheduleRedirectUri client) "";
  platformBookingUrl := JS.nullish (bookingRedirectUri client) "";
  arePlatformEmailsEnabled := JS.nullish (areEmailsEnabled client) false;
  platformBookingLocation := platformBookingLocation res
|}.

(** [getOAuthClientsParams(clientId)].  [res] is not a copy: it is the object
    [DEFAULT_PLATFORM_PARAMS] itself, so the assignments to [res] are
    assignments to the module-level object, and the value returned is that
    object. *)
Definition getOAuthClientsParams (env : Env) (clientId : string)
  : M OAuthRequestParams :=
  tryCatch
    (emit (GetOAuthClient clientId) ;;
     client <- await (getOAuthClient env clientId) ;;
     match client with
     | Some client => writeDefaults (assignClient clientId client)
     | None => ret tt
     end ;;
     readDefaults)
    (fun err => emit (LoggerError err) ;; readDefaults).

(** [{ ...req.body, noEmail }] *)
Definition withNoEmail (b : Body) (flag : bool) : Body := {|
  id := id b;
  noEmail := Some flag;
  orgSlug := orgSlug b;
  locationUrl := locationUrl b;
  payload := payload b
|}.

(** [req.body.id = n] *)
Definition withBodyId (req : BookingRequest) (n : JS.number) : BookingRequest := {|
  authorization := authorization req;
  forceSlug := forceSlug req;
  body := {| id := Some n;
             noEmail := noEmail (body req);
             orgSlug := orgSlug (body req);
             locationUrl := locationUrl (body req);
             payload := payload (body req) |};
  userId := userId req
|}.

(** [req.headers["x-cal-force-slug"] = slug] *)
Definition withForceSlug (req : BookingRequest) (slug : option string)
  : BookingRequest := {|
  authorization := authorization req;
  forceSlug := slug;
  body := body req;
  userId := userId req
|}.

(** [req.userId = n] *)
Definition withUserId (req : BookingRequest) (n : Z) : BookingRequest := {|
  authorization := authorization req;
  forceSlug := forceSlug req;
  body := body req;
  userId := Some n
|}.

(** [{ ...oAuthParams, platformBookingLocation }] *)
Definition withBookingLocation (oAuthParams : OAuthRequestParams)
    (location : option string) : OAuthRequestParams := {|
  platformClientId := platformClientId oAuthParams;
  platformCancelUrl := platformCancelUrl oAuthParams;
  platformRescheduleUrl := platformRescheduleUrl oAuthParams;
  platformBookingUrl := platformBookingUrl oAuthParams;
  arePlatformEmailsEnabled := arePlatformEmailsEnabled oAuthParams;
  platformBookingLocation := location
|}.

(** The local [oAuthParams] of [createNextApiBookingRequest]: the looked-up
    parameters when a client id is given, [DEFAULT_PLATFORM_PARAMS]
    otherwise. *)
Definition resolveOAuthParams (env : Env) (oAuthClientId : option string)
  : M OAuthRequestParams :=
  match JS.whenTruthyStr oAuthClientId with
  | Some oAuthClientId => getOAuthClientsParams env oAuthClientId
  | None => readDefaults
  end.

(** [createNextApiBookingRequest(req, oAuthClientId, platformBookingLocation)] *)
Definition createNextApiBookingRequest (env : Env) (req : BookingRequest)
    (oAuthClientId : option string) (platformBookingLocation : option string)
  : M NextApiBookingRequest :=
  owner <- getOwnerId env req ;;
  let userId := JS.nullish owner (-1) in
  oAuthParams <- resolveOAuthParams env oAuthClientId ;;
  ret {| nextAuthorization := authorization req;
         nextForceSlug := forceSlug req;
         nextBody := withNoEmail (body req)
                       (negb (arePlatformEmailsEnabled oAuthParams));
         nextUserId := userId;
         nextParams := withBookingLocation oAuthParams platformBookingLocation |}.

(** What follows a [try] statement whose block returns: the returned value,
    or, when the [catch] handler completed normally, the [throw] after the
    statement. *)
Definition orElseThrow {A} (r : option A) (msg : string) : M A :=
  match r with
  | Some a => ret a
  | None => throw (InternalServerErrorException msg)
  end.

(** [createBooking(req, body, clientId)]; [body] is [req.body]. *)
Definition createBooking (env : Env) (req : BookingRequest)
    (clientId : option string) : M (ApiResponse BookingResponse) :=
  let oAuthClientId := clientId in
  let req := withForceSlug req (orgSlug (body req)) in
  r <- tryCatch
         (next <- createNextApiBookingRequest env req oAuthClientId
                    (locationUrl (body req)) ;;
          emit (HandleNewBooking next) ;;
          booking <- await (handleNewBooking env next) ;;
          match JS.whenTruthyNum (bookingUserId booking),
                JS.whenTruthyStr (bookingUid booking),
                bookingStartTime booking with
          | Some userId, Some uid, Some startTime =>
              let usage := {| usageUid := uid;
                              usageStartTime := startTime;
                              usageFromReschedule := bookingFromReschedule booking |} in
              emit (IncreaseUsageByUserId userId usage) ;;
              await (increaseUsageByUserId env userId usage)
          | _, _, _ => ret tt
          end ;;
          ret (Some {| status := SUCCESS_STATUS; data := booking |}))
         (fun err => handleBookingErrors err None ;; ret None) ;;
  orElseThrow r "Could not create booking.".

(** [cancelBooking(req, bookingId, _, clientId)] *)
Definition cancelBooking (env : Env) (req : BookingRequest)
    (bookingId : option string) (clientId : option string)
  : M (ApiResponse CancelResult) :=
  let oAuthClientId := clientId in
  match JS.whenTruthyStr bookingId with
  | Some bookingId =>
      r <- tryCatch
             (let req := withBodyId req (JS.parseInt bookingId) in
              next <- createNextApiBookingRequest env req oAuthClientId None ;;
              emit (HandleCancelBooking next) ;;
              res <- await (handleCancelBooking env next) ;;
              (if negb (onlyRemovedAttendee res) then
                 emit (CancelUsageByBookingUid (cancelledBookingUid res)) ;;
                 await (cancelUsageByBookingUid env (cancelledBookingUid res))
               else ret tt) ;;
              ret (Some {| status := SUCCESS_STATUS;
                           data := {| cancelledBookingId := cancelledBookingId res;
                                      cancelledBookingUid := cancelledBookingUid res;
                                      onlyRemovedAttendee := onlyRemovedAttendee res |} |}))
             (fun err => handleBookingErrors err None ;; ret None) ;;
      orElseThrow r "Could not cancel booking."
  | None => throw (NotFoundException "Booking ID is required.")
  end.

(** [markNoShow(userId, body, bookingUid)] *)
Definition markNoShow (env : Env) (userId : Z)
    (attendees : option (list (string * bool))) (host : option bool)
    (bookingUid : string) : M (ApiResponse string) :=
  r <- tryCatch
         (let args := {| noShowBookingUid := bookingUid;
                         noShowAttendees := attendees;
                         noShowHost := host;
                         noShowUserId := userId |} in
          emit (HandleMarkNoShow args) ;;
          markNoShowResponse <- await (handleMarkNoShow env args) ;;
          ret (Some {| status := SUCCESS_STATUS; data := markNoShowResponse |}))
         (fun err => handleBookingErrors err (Some no_show) ;; ret None) ;;
  orElseThrow r "Could not mark no show.".

(** The callback of [createdBookings.forEach]: each call is issued when its
    booking is visited and nobody waits for it. *)
Fixpoint increaseUsageForEach (env : Env) (createdBookings : list BookingResponse)
  : M unit :=
  match createdBookings with
  | [] => ret tt
  | booking :: rest =>
      match JS.whenTruthyNum (bookingUserId booking),
            JS.whenTruthyStr (bookingUid booking),
            bookingStartTime booking with
      | Some userId, Some uid, Some startTime =>
          let usage := {| usageUid := uid;
                          usageStartTime := startTime;
                          usageFromReschedule := None |} in
          detached (emit (IncreaseUsageByUserId userId usage) ;;
                    await (increaseUsageByUserId env userId usage))
      | _, _, _ => ret tt
      end ;;
      increaseUsageForEach env rest
  end.

(** [createRecurringBooking(req, _, clientId)] *)
Definition createRecurringBooking (env : Env) (req : BookingRequest)
    (clientId : option string) : M (ApiResponse (list BookingResponse)) :=
  let oAuthClientId := clientId in
  r <- tryCatch
         (next <- createNextApiBookingRequest env req oAuthClientId None ;;
          emit (HandleNewRecurringBooking next) ;;
          createdBookings <- await (handleNewRecurringBooking env next) ;;
          increaseUsageForEach env createdBookings ;;
          ret (Some {| status := SUCCESS_STATUS; data := createdBookings |}))
         (fun err => handleBookingErrors err (Some recurring) ;; ret None) ;;
  orElseThrow r "Could not create recurring booking.".

(** [createInstantBooking(req, _, clientId)] *)
Definition createInstantBooking (env : Env) (req : BookingRequest)
    (clientId : option string) : M (ApiResponse InstantMeeting) :=
  let oAuthClientId := clientId in
  owner <- getOwnerId env req ;;
  let req := withUserId req (JS.nullish owner (-1)) in
  r <- tryCatch
         (next <- createNextApiBookingRequest env req oAuthClientId None ;;
          emit (HandleInstantMeeting next) ;;
          instantMeeting <- await (handleInstantMeeting env next) ;;
          match JS.whenTruthyNum (meetingUserId instantMeeting),
                JS.whenTruthyStr (meetingBookingUid instantMeeting) with
          | Some userId, Some bookingUid =>
              let now := newDate env in
              let now := Date.setSeconds (LocalTZA env) now
                           (Date.getSeconds (LocalTZA env) now + 10) in
              let usage := {| usageUid := bookingUid;
                              usageStartTime := now;
                              usageFromReschedule := None |} in
              emit (IncreaseUsageByUserId userId usage) ;;
              await (increaseUsageByUserId env userId usage)
          | _, _ => ret tt
          end ;;
          ret (Some {| status := SUCCESS_STATUS; data := instantMeeting |}))
         (fun err => handleBookingErrors err (Some instant) ;; ret None) ;;
  orElseThrow r "Could not create instant booking.".

(** The value a run returned, if it returned. *)
Definition returned {A} (r : Result A * OAuthRequestParams * list Event)
  : option A :=
  match outcome r with
  | Returns a => Some a
  | Throws _ => None
  end.

(** ** Reading a trace *)

(** The usage increases issued, in order. *)
Definition usageEvents (evs : list Event) : list (Z * UsageBooking) :=
  omap (fun ev => match ev with
                  | IncreaseUsageByUserId userId booking => Some (userId, booking)
                  | _ => None
                  end) evs.

(** The usage cancellations issued, in order. *)
Definition cancellationEvents (evs : list Event) : list string :=
  omap (fun ev => match ev with
                  | CancelUsageByBookingUid uid => Some uid
                  | _ => None
                  end) evs.

(** The requests handed to [handleCancelBooking], in order. *)
Definition cancelEngineCalls (evs : list Event) : list NextApiBookingRequest :=
  omap (fun ev => match ev with
                  | HandleCancelBooking next => Some next
                  | _ => None
                  end) evs.

(** The requests handed to [handleInstantMeeting], in order. *)
Definition instantEngineCalls (evs : list Event) : list NextApiBookingRequest :=
  omap (fun ev => match ev with
                  | HandleInstantMeeting next => Some next
                  | _ => None
                  end) evs.

(** A call to the engine or to billing. *)
Definition isEngineOrBillingCall (ev : Event) : bool :=
  match ev with
  | LoggerError _ | GetApiKeyFromHash _ | OAuthFlowGetOwnerId _
  | GetOAuthClient _ => false
  | _ => true
  end.

(** ** Example collaborators

    Concrete services on which the handlers are run. *)

Definition exampleHash (s : string) : string := "sha256:" +:+ s.

Definition exampleClient : OAuthClient := {|
  bookingCancelRedirectUri := Some "https://acme.test/cancel";
  bookingRescheduleRedirectUri := None;
  bookingRedirectUri := Some "https://acme.test/booked";
  areEmailsEnabled := Some true
|}.

Definition exampleBooking : BookingResponse := {|
  bookingUserId := Some 7;
  bookingUid := Some "abc";
  bookingStartTime := Some 1700003600000;
  bookingFromReschedule := Some false;
  bookingData := "30min"
|}.

Definition exampleMeeting : InstantMeeting := {|
  meetingUserId := Some 9;
  meetingBookingUid := Some "xyz";
  meetingData := "instant"
|}.

Definition exampleCancelResult : CancelResult := {|
  cancelledBookingId := 42;
  cancelledBookingUid := "abc";
  onlyRemovedAttendee := false
|}.

(** One stored key, for the secret "s3cret", owned by user 7; one OAuth
    client, "acme"; the client directory fails for "down". *)
Definition exampleEnv (cfg : gmap string string)
    (tokens : string -> Called (option Z)) : Env := {|
  config := cfg;
  hashAPIKey := exampleHash;
  getApiKeyFromHash := fun hash =>
    if String.eqb hash "sha256:s3cret" then Resolved (Some {| keyUserId := 7 |})
    else Resolved None;
  oAuthFlowGetOwnerId := tokens;
  getOAuthClient := fun clientId =>
    if String.eqb clientId "acme" then Resolved (Some exampleClient)
    else if String.eqb clientId "down" then Rejected (JsError (Some "db down"))
    else Resolved None;
  handleNewBooking := fun _ => Resolved exampleBooking;
  handleNewRecurringBooking := fun _ => Resolved [exampleBooking];
  handleInstantMeeting := fun _ => Resolved exampleMeeting;
  handleCancelBooking := fun _ => Resolved exampleCancelResult;
  handleMarkNoShow := fun _ => Rejected (JsError (Some "db down"));
  increaseUsageByUserId := fun _ _ => Resolved tt;
  cancelUsageByBookingUid := fun _ => Resolved tt;
  newDate := 1700000055250;
  LocalTZA := fun _ _ => 3600000
|}.

(** A zone that is two hours ahead of UTC until it leaves daylight-saving
    time at 2024-10-27T01:00:00Z (03:00 local), and one hour ahead from then
    on, as Europe/Berlin is.  The local times between 02:00 and 03:00 of that
    day occur twice; read as local times they take the offset from before the
    change. *)
Definition endOfDaylightSaving : Z := 1729990800000.

Definition leavingDaylightSaving (t : Z) (isUTC : bool) : Z :=
  if isUTC then
    if t <? endOfDaylightSaving then 7200000 else 3600000
  else
    if t <? endOfDaylightSaving + 7200000 then 7200000 else 3600000.

(** [exampleEnv] with another clock. *)
Definition atTime (now : Z) (zone : Z -> bool -> Z) (env : Env) : Env := {|
  config := config env;
  hashAPIKey := hashAPIKey env;
  getApiKeyFromHash := getApiKeyFromHash env;
  oAuthFlowGetOwnerId := oAuthFlowGetOwnerId env;
  getOAuthClient := getOAuthClient env;
  handleNewBooking := handleNewBooking env;
  handleNewRecurringBooking := handleNewRecurringBooking env;
  handleInstantMeeting := handleInstantMeeting env;
  handleCancelBooking := handleCancelBooking env;
  handleMarkNoShow := handleMarkNoShow env;
  increaseUsageByUserId := increaseUsageByUserId env;
  cancelUsageByBookingUid := cancelUsageByBookingUid env;
  newDate := now;
  LocalTZA := zone
|}.

(** No access token is known. *)
Definition noTokens (token : string) : Called (option Z) :=
  Returned (Resolved None).

(** Token introspection is an async function whose storage is down: every
    call returns a promise that rejects. *)
Definition failingTokens (token : string) : Called (option Z) :=
  Returned (Rejected (JsError (Some "introspection down"))).

(** The key prefix is configured under "api.keyPrefix" only. *)
Definition keyPrefixConfig : gmap string string :=
  {[ "api.keyPrefix" := "key_" ]}.

(** Both configuration entries carry the same prefix. *)
Definition agreeingConfig : gmap string string :=
  <[ "api.apiKeyPrefix" := "key_" ]> {[ "api.keyPrefix" := "key_" ]}.

Definition exampleBody : Body := {|
  id := None;
  noEmail := None;
  orgSlug := Some "acme-org";
  locationUrl := None;
  payload := "{}"
|}.

Definition exampleRequest (header : option string) : BookingRequest := {|
  authorization := header;
  forceSlug := None;
  body := exampleBody;
  userId := None
|}.

Definition acmeParams : OAuthRequestParams := {|
  platformClientId := "acme";
  platformRescheduleUrl := "";
  platformCancelUrl := "https://acme.test/cancel";
  platformBookingUrl := "https://acme.test/booked";
  platformBookingLocation := None;
  arePlatformEmailsEnabled := true
|}.

(** The request assembled from an example request. *)
Definition exampleAssembled (header slug : option string)
    (bodyId : option JS.number) (owner : Z) (params : OAuthRequestParams)
  : NextApiBookingRequest := {|
  nextAuthorization := header;
  nextForceSlug := slug;
  nextBody := {| id := bodyId;
                 noEmail := Some (negb (arePlatformEmailsEnabled params));
                 orgSlug := Some "acme-org";
                 locationUrl := None;
                 payload := "{}" |};
  nextUserId := owner;
  nextParams := params
|}.

(** Services with an agreeing configuration, and a request that carries the
    stored API key. *)
Definition keyedEnv : Env := exampleEnv agreeingConfig noTokens.
Definition keyedRequest : BookingRequest :=
  exampleRequest (Some "Bearer key_s3cret").

(** Services with an empty configuration, and a request without
    credentials. *)
Definition plainEnv : Env := exampleEnv ∅ noTokens.
Definition plainRequest : BookingRequest := exampleRequest None.

(** Two requests in a row on a freshly loaded module: the first names the
    client "acme", the second names [second]. *)
Definition afterAcme (second : option string)
  : Result NextApiBookingRequest * OAuthRequestParams * list Event :=
  (createNextApiBookingRequest plainEnv plainRequest (Some "acme") None ;;
   createNextApiBookingRequest plainEnv plainRequest second None)
    DEFAULT_PLATFORM_PARAMS.

(** ** Reading bookings

    The three GET handlers call the library's read functions and touch
    neither the module-level object nor the services above. *)

(** The fields of the authenticated [User] that [getBookings] reads. *)
Record User := {
  email : string;
  userRowId : Z
}.

(** [GetBookingsInput]: the filters (with their [status]) and the optional
    paging numbers. *)
Record BookingFilters := {
  filterStatus : string;
  otherFilters : string
}.

Record GetBookingsInput := {
  filters : BookingFilters;
  cursor : option Z;
  limit : option Z
}.

(** The argument of [getAllUserBookings]; the prisma client of [ctx] is the
    injected read client and is left out. *)
Record GetAllUserBookingsArgs := {
  bookingListingByStatus : string;
  skip : Z;
  take : Z;
  listingFilters : BookingFilters;
  ctxUserEmail : string;
  ctxUserId : Z
}.

(** The read functions of the library.  [getBookingInfo] resolves to an
    object whose [bookingInfo] may be missing; [getBookingForReschedule]
    resolves to the booking or to nothing. *)
Record ReadEnv := {
  getAllUserBookings : GetAllUserBookingsArgs -> Settled string;
  getBookingInfo : string -> Settled (option string);
  lookupBookingForReschedule : string -> Settled (option string)
}.

(** An awaited call in a handler without [try]: the value, or the rejection
    as it is. *)
Definition awaited {A} (p : Settled A) : Result A :=
  match p with
  | Resolved a => Returns a
  | Rejected e => Throws e
  end.

(** [getBookings(user, queryParams)] *)
Definition getBookings (renv : ReadEnv) (user : User)
    (queryParams : GetBookingsInput) : Result (ApiResponse string) :=
  match awaited (getAllUserBookings renv
                   {| bookingListingByStatus := filterStatus (filters queryParams);
                      skip := JS.nullish (cursor queryParams) 0;
                      take := JS.nullish (limit queryParams) 10;
                      listingFilters := filters queryParams;
                      ctxUserEmail := email user;
                      ctxUserId := userRowId user |}) with
  | Returns bookings => Returns {| status := SUCCESS_STATUS; data := bookings |}
  | Throws e => Throws e
  end.

(** The message of the 404 of the two lookups. *)
Definition doesNotExist (bookingUid : string) : string :=
  "Booking with UID=" +:+ bookingUid +:+ " does not exist.".

(** [getBooking(bookingUid)] *)
Definition getBooking (renv : ReadEnv) (bookingUid : string)
  : Result (ApiResponse string) :=
  match awaited (getBookingInfo renv bookingUid) with
  | Returns (Some bookingInfo) =>
      Returns {| status := SUCCESS_STATUS; data := bookingInfo |}
  | Returns None => Throws (NotFoundException (doesNotExist bookingUid))
  | Throws e => Throws e
  end.

(** [getBookingForReschedule(bookingUid)] *)
Definition getBookingForReschedule (renv : ReadEnv) (bookingUid : string)
  : Result (ApiResponse string) :=
  match awaited (lookupBookingForReschedule renv bookingUid) with
  | Returns (Some booking) =>
      Returns {| status := SUCCESS_STATUS; data := booking |}
  | Returns None => Throws (NotFoundException (doesNotExist bookingUid))
  | Throws e => Throws e
  end.

(** ** What a handler lets out *)

(** [handleBookingErrors] as a function, branch by branch: the exception it
    throws for [err] ([handleBookingErrors_classify] ties the two). *)
Definition classify (err : Thrown) (type : option BookingErrorType) : Thrown :=
  match err with
  | HttpError message statusCode =>
      HttpException (default (errMsg type) message) (default 500 statusCode)
  | _ =>
      InternalServerErrorException (default (errMsg type) (errorMessage err))
  end.

(** A result that is a value or an [HttpException]. *)
Definition returnsOrHttpException {A} (r : Result A) : Prop :=
  match r with
  | Returns _ => True
  | Throws (HttpException _ _) => True
  | Throws _ => False
  end.

(** A computation under which the module-level object moves along [R]. *)
Definition moves (R : OAuthRequestParams -> OAuthRequestParams -> Prop)
    {A} (m : M A) : Prop :=
  forall st, R st (store (m st)).

(** The two objects agree on [platformBookingLocation]. *)
Definition sameBookingLocation (st st' : OAuthRequestParams) : Prop :=
  platformBookingLocation st' = platformBookingLocation st.

(** The client id is missing or empty, or its lookup does not come back with
    a client. *)
Definition noClientFound (env : Env) (clientId : option string) : Prop :=
  forall oAuthClientId client,
    JS.whenTruthyStr clientId = Some oAuthClientId ->
    getOAuthClient env oAuthClientId <> Resolved (Some client).

(** The value of a string of decimal digits, most significant first. *)
Definition decimalValue (s : string) : Z :=
  fold_left (fun acc c => acc * 10 + (Z.of_N (Ascii.N_of_ascii c) - 48))
    (list_ascii_of_string s) 0.

(** The usage increases [createRecurringBooking] issues for a list of
    created bookings. *)
Definition recurringUsage (createdBookings : list BookingResponse)
  : list Event :=
  omap (fun booking =>
          match JS.whenTruthyNum (bookingUserId booking),
                JS.whenTruthyStr (bookingUid booking),
                bookingStartTime booking with
          | Some userId, Some uid, Some startTime =>
              Some (IncreaseUsageByUserId userId
                      {| usageUid := uid;
                         usageStartTime := startTime;
                         usageFromReschedule := None |})
          | _, _, _ => None
          end) createdBookings.

(** ** More example collaborators *)

(** [env] with an engine that rejects every call with [err]. *)
Definition withFailingEngine (err : Thrown) (env : Env) : Env := {|
  config := config env;
  hashAPIKey := hashAPIKey env;
  getApiKeyFromHash := getApiKeyFromHash env;
  oAuthFlowGetOwnerId := oAuthFlowGetOwnerId env;
  getOAuthClient := getOAuthClient env;
  handleNewBooking := fun _ => Rejected err;
  handleNewRecurringBooking := fun _ => Rejected err;
  handleInstantMeeting := fun _ => Rejected err;
  handleCancelBooking := fun _ => Rejected err;
  handleMarkNoShow := fun _ => Rejected err;
  increaseUsageByUserId := increaseUsageByUserId env;
  cancelUsageByBookingUid := cancelUsageByBookingUid env;
  newDate := newDate env;
  LocalTZA := LocalTZA env
|}.

(** [env] with a billing service that rejects every call with [err]. *)
Definition withFailingBilling (err : Thrown) (env : Env) : Env := {|
  config := config env;
  hashAPIKey := hashAPIKey env;
  getApiKeyFromHash := getApiKeyFromHash env;
  oAuthFlowGetOwnerId := oAuthFlowGetOwnerId env;
  getOAuthClient := getOAuthClient env;
  handleNewBooking := handleNewBooking env;
  handleNewRecurringBooking := handleNewRecurringBooking env;
  handleInstantMeeting := handleInstantMeeting env;
  handleCancelBooking := handleCancelBooking env;
  handleMarkNoShow := handleMarkNoShow env;
  increaseUsageByUserId := fun _ _ => Rejected err;
  cancelUsageByBookingUid := fun _ => Rejected err;
  newDate := newDate env;
  LocalTZA := LocalTZA env
|}.

Definition slotTaken : Thrown := HttpError (Some "slot taken") (Some 409).
Definition ledgerDown : Thrown := JsError (Some "ledger down").

(** A second OAuth client, with nothing but emails switched off. *)
Definition bareClient : OAuthClient := {|
  bookingCancelRedirectUri := None;
  bookingRescheduleRedirectUri := None;
  bookingRedirectUri := None;
  areEmailsEnabled := Some false
|}.

(** [plainEnv] with the clients "acme" and "bare". *)
Definition twoClientsEnv : Env := {|
  config := config plainEnv;
  hashAPIKey := hashAPIKey plainEnv;
  getApiKeyFromHash := getApiKeyFromHash plainEnv;
  oAuthFlowGetOwnerId := oAuthFlowGetOwnerId plainEnv;
  getOAuthClient := fun clientId =>
    if String.eqb clientId "bare" then Resolved (Some bareClient)
    else getOAuthClient plainEnv clientId;
  handleNewBooking := handleNewBooking plainEnv;
  handleNewRecurringBooking := handleNewRecurringBooking plainEnv;
  handleInstantMeeting := handleInstantMeeting plainEnv;
  handleCancelBooking := handleCancelBooking plainEnv;
  handleMarkNoShow := handleMarkNoShow plainEnv;
  increaseUsageByUserId := increaseUsageByUserId plainEnv;
  cancelUsageByBookingUid := cancelUsageByBookingUid plainEnv;
  newDate := newDate plainEnv;
  LocalTZA := LocalTZA plainEnv
|}.

Definition exampleReadEnv : ReadEnv := {|
  getAllUserBookings := fun args =>
    if (take args =? 0) then Resolved "[]" else Resolved "[booking]";
  getBookingInfo := fun uid =>
    if String.eqb uid "abc" then Resolved (Some "booking abc") else Resolved None;
  lookupBookingForReschedule := fun uid =>
    if String.eqb uid "abc" then Resolved (Some "booking abc")
    else Rejected (JsError (Some "db down"))
|}.

(** ** Proof tactics *)

(** Unfolds a computation down to the collaborators' answers. *)
Ltac run :=
  unfold outcome, store, trace, bind, tryCatch, adopt, await, detached,
    orElseThrow, ret, throw, emit, readDefaults, writeDefaults;
  cbn beta iota zeta.

(** Case analysis on the branches of [getOwnerId]. *)
Ltac cases_getOwnerId env :=
  unfold getOwnerId; run;
  destruct (JS.whenTruthyStr _) as [token|]; cbn;
  [ destruct (isApiKey _ _); cbn;
    [ destruct (getApiKeyFromHash env _) as [key|err]; cbn
    | destruct (oAuthFlowGetOwnerId env _) as [err|[owner|err]]; cbn ]
  | ].

(** * Properties *)

(** ** Strings, numerals and dates *)

Lemma startsWith_app (p s : string) : JS.startsWith p (p +:+ s) = true.
Proof.
  induction p as [|c p IH]; simpl; [reflexivity|].
  now rewrite Ascii.eqb_refl.
Qed.

Lemma drop_app (p s : string) : JS.drop (String.length p) (p +:+ s) = s.
Proof.
  induction p as [|c p IH]; simpl; [reflexivity | exact IH].
Qed.

(** Removing a pattern that stands in front removes exactly that prefix. *)
Lemma removeFirst_prefix (p s : string) : JS.removeFirst p (p +:+ s) = s.
Proof.
  destruct p as [|c p]; [now destruct s|].
  change (JS.removeFirst (String c p) (String c p +:+ s))
    with (if JS.startsWith (String c p) (String c p +:+ s)
          then JS.drop (String.length (String c p)) (String c p +:+ s)
          else String c (JS.removeFirst (String c p) (p +:+ s))).
  now rewrite startsWith_app, drop_app.
Qed.

(** A code unit that is not a decimal digit is not a digit of radix 10. *)
Lemma takeDigits_not_decimal (c : ascii) (s : string) :
  JS.isDecimalDigit c = false -> JS.takeDigits 10 (String c s) = [].
Proof.
  destruct c as [[] [] [] [] [] [] [] []]; vm_compute; congruence.
Qed.

(** Only "0" opens a radix prefix. *)
Lemma splitRadix_not_decimal (c : ascii) (s : string) :
  JS.isDecimalDigit c = false ->
  JS.splitRadix (String c s) = (10, String c s).
Proof.
  destruct c as [[] [] [] [] [] [] [] []]; vm_compute; congruence.
Qed.

(** [parseInt] finds no number where, after white space and a sign, no
    decimal digit stands. *)
Lemma parseInt_noLeadingDigit (s : string) :
  JS.noLeadingDigit s = true -> JS.parseInt s = JS.NaN.
Proof.
  unfold JS.noLeadingDigit, JS.afterSign, JS.parseInt.
  destruct (JS.splitSign (JS.trimStart s)) as [sign s1]; simpl.
  destruct s1 as [|c s1]; [reflexivity|].
  intros H. apply negb_true_iff in H.
  rewrite (splitRadix_not_decimal c s1 H).
  now rewrite (takeDigits_not_decimal c s1 H).
Qed.

(** The Number value of an integer is a number. *)
Lemma toDouble_not_NaN (z : Z) : JS.toDouble z <> JS.NaN.
Proof.
  unfold JS.toDouble.
  destruct (2 ^ 1024 <=? JS.roundMagnitude (Z.abs z)); [|discriminate].
  destruct (z <? 0); discriminate.
Qed.

(** Integers of magnitude up to 2^53 are doubles. *)
Lemma toDouble_exact (z : Z) :
  Z.abs z <= 2 ^ 53 -> JS.toDouble z = JS.Num z.
Proof.
  intros Hz. unfold JS.toDouble.
  assert (Hm : JS.roundMagnitude (Z.abs z) = Z.abs z).
  { unfold JS.roundMagnitude.
    destruct (Z.abs z <? 2 ^ 53) eqn:Hlt; [reflexivity|].
    apply Z.ltb_ge in Hlt.
    assert (Heq : Z.abs z = 2 ^ 53) by lia.
    rewrite Heq. reflexivity. }
  rewrite Hm.
  assert (Hsmall : 2 ^ 53 < 2 ^ 1024) by (apply Z.pow_lt_mono_r; lia).
  destruct (2 ^ 1024 <=? Z.abs z) eqn:Hbig;
    [apply Z.leb_le in Hbig; lia|].
  f_equal. lia.
Qed.

(** A decimal numeral is parsed (never NaN). *)
Lemma parseInt_decimal_numeral (s : string) :
  JS.isDecimalNumeral s = true -> JS.parseInt s <> JS.NaN.
Proof.
  destruct s as [|c s]; [discriminate|].
  unfold JS.isDecimalNumeral, JS.allDecimalDigits; fold JS.allDecimalDigits.
  intros H. apply andb_true_iff in H as [Hc Hs].
  destruct c as [[] [] [] [] [] [] [] []]; try discriminate Hc;
    unfold JS.parseInt;
    try (cbn -[JS.toDouble]; apply toDouble_not_NaN).
  destruct s as [|d s]; [vm_compute; discriminate|].
  simpl in Hs. apply andb_true_iff in Hs as [Hd _].
  destruct d as [[] [] [] [] [] [] [] []]; try discriminate Hd;
    cbn -[JS.toDouble]; apply toDouble_not_NaN.
Qed.

(** On the local time value, putting the seconds field ten higher is adding
    ten seconds, whatever the field was (59 rolls over into the next
    minute). *)
Lemma local_seconds_plus_10 (t : Z) :
  Date.MakeDate (Date.Day t)
    (Date.MakeTime (Date.HourFromTime t) (Date.MinFromTime t)
       (Date.SecFromTime t + 10) (Date.msFromTime t))
  = t + 10000.
Proof.
  unfold Date.MakeDate, Date.MakeTime, Date.Day, Date.HourFromTime,
    Date.MinFromTime, Date.SecFromTime, Date.msFromTime,
    Date.msPerDay, Date.msPerHour, Date.msPerMinute, Date.msPerSecond.
  Z.div_mod_to_equations. lia.
Qed.

(** [now.setSeconds(now.getSeconds() + 10)] is the local time ten seconds
    on, read back with the offset the zone has for that local time. *)
Lemma setSeconds_plus_10_local (LocalTZA : Z -> bool -> Z) (d : Z) :
  Date.setSeconds LocalTZA d (Date.getSeconds LocalTZA d + 10)
  = d + 10000
    + (LocalTZA d true - LocalTZA (d + LocalTZA d true + 10000) false).
Proof.
  unfold Date.setSeconds, Date.getSeconds. cbv zeta.
  rewrite local_seconds_plus_10.
  unfold Date.UTC, Date.LocalTime. lia.
Qed.

(** Where the zone has the same offset for the instant and for the local
    time ten seconds on, [now.setSeconds(now.getSeconds() + 10)] moves the
    date by ten seconds. *)
Lemma setSeconds_plus_10 (LocalTZA : Z -> bool -> Z) (d : Z) :
  LocalTZA (d + LocalTZA d true + 10000) false = LocalTZA d true ->
  Date.setSeconds LocalTZA d (Date.getSeconds LocalTZA d + 10) = d + 10000.
Proof.
  intros H. rewrite setSeconds_plus_10_local, H. lia.
Qed.

(** ** The error classifier *)

(** The message built from the [type] argument. *)
Lemma errMsg_cases :
  errMsg None = "Error while creating booking."
  /\ errMsg (Some recurring) = "Error while creating recurring booking."
  /\ errMsg (Some instant) = "Error while creating instant booking."
  /\ errMsg (Some no_show) = "Error while marking no-show.".
Proof. repeat split. Qed.

(** What the [??] fallbacks do for an [HttpError] that lacks a field: each
    field is defaulted on its own, so a status without a message keeps the
    status. *)
Lemma handleBookingErrors_HttpError_fallbacks
    (message : option string) (statusCode : option Z)
    (type : option BookingErrorType) (st : OAuthRequestParams) :
  handleBookingErrors (HttpError message statusCode) type st
  = (Throws (HttpException (default (errMsg type) message)
               (default 500 statusCode)), st, []).
Proof. reflexivity. Qed.

(** C3 as stated fails.  An [Error] made without a message has the empty
    string as its message.  The [??] keeps it, and
    [InternalServerErrorException] takes an empty message for a missing one:
    what is thrown reports "Internal Server Error", which is neither the
    error's message nor the templated one. *)
Lemma handleBookingErrors_empty_message_counterexample :
  handleBookingErrors (JsError (Some "")) None DEFAULT_PLATFORM_PARAMS
  = (Throws (HttpException "Internal Server Error" 500),
     DEFAULT_PLATFORM_PARAMS, [])
  /\ ~ (forall message type st,
           handleBookingErrors (JsError (Some message)) type st
           = (Throws (HttpException message 500), st, []))
  /\ ~ (handleBookingErrors (JsError (Some "")) None DEFAULT_PLATFORM_PARAMS
        = (Throws (HttpException (errMsg None) 500),
           DEFAULT_PLATFORM_PARAMS, [])).
Proof.
  split; [reflexivity|]. split.
  - intros H. specialize (H "" None DEFAULT_PLATFORM_PARAMS). discriminate H.
  - discriminate.
Qed.

(** C3, amended.  [handleBookingErrors] always throws, and what it throws is
    an [HttpException]: an [HttpError] with its own message and status code
    is rethrown with both unchanged; any other [Error] with a message that is
    not empty (also an [HttpError] with a message and no status code) is
    rethrown with that message and status 500; an [Error] whose message is the
    empty string gives status 500 with the text "Internal Server Error"; an
    [Error] that has neither message nor status and a thrown value that is no
    [Error] give status 500 with the message
    "Error while creating [<type> ]booking.", which for the no-show type is
    "Error while marking no-show." instead. *)
Theorem handleBookingErrors_classification :
  (forall err type st, exists response status,
      handleBookingErrors err type st
      = (Throws (HttpException response status), st, []))
  /\ (forall message statusCode type st,
         handleBookingErrors (HttpError (Some message) (Some statusCode)) type st
         = (Throws (HttpException message statusCode), st, []))
  /\ (forall c message type st,
         handleBookingErrors (JsError (Some (String c message))) type st
         = (Throws (HttpException (String c message) 500), st, [])
         /\ handleBookingErrors (HttpError (Some (String c message)) None) type st
            = (Throws (HttpException (String c message) 500), st, [])
         /\ forall status,
             handleBookingErrors (HttpException (String c message) status) type st
             = (Throws (HttpException (String c message) 500), st, []))
  /\ (forall type st,
         handleBookingErrors (JsError (Some "")) type st
         = (Throws (HttpException "Internal Server Error" 500), st, [])
         /\ forall status,
             handleBookingErrors (HttpException "" status) type st
             = (Throws (HttpException "Internal Server Error" 500), st, []))
  /\ (forall value type st,
         handleBookingErrors (JsError None) type st
         = (Throws (HttpException (errMsg type) 500), st, [])
         /\ handleBookingErrors (HttpError None None) type st
            = (Throws (HttpException (errMsg type) 500), st, [])
         /\ handleBookingErrors (NonError value) type st
            = (Throws (HttpException (errMsg type) 500), st, []))
  /\ (forall type,
         errMsg type
         = match type with
           | Some no_show => "Error while marking no-show."
           | Some t => "Error while creating " +:+ typeText t +:+ " booking."
           | None => "Error while creating booking."
           end).
Proof.
  split; [|split; [|split; [|split; [|split]]]].
  - intros err type st.
    destruct err as [m s| [[|c m]|] | [|c m] s | v]; cbn; eauto.
  - reflexivity.
  - intros c message type st. repeat split.
  - intros type st. repeat split.
  - intros value type st. destruct type as [[]|]; repeat split.
  - intros [[]|]; reflexivity.
Qed.

(** ** Cancelling without a booking id *)

(** C7.  When the [bookingId] parameter is absent or the empty string,
    [cancelBooking] throws the 404 exception "Booking ID is required." and
    calls nothing: no owner or client lookup, no engine call, no billing call,
    and [DEFAULT_PLATFORM_PARAMS] is left as it was. *)
Theorem cancelBooking_without_booking_id
    (env : Env) (req : BookingRequest) (clientId : option string)
    (st : OAuthRequestParams) :
  cancelBooking env req None clientId st
  = (Throws (HttpException "Booking ID is required." 404), st, [])
  /\ cancelBooking env req (Some "") clientId st
     = (Throws (HttpException "Booking ID is required." 404), st, []).
Proof. split; reflexivity. Qed.

(** ** Owner and client lookups *)

(** [getOwnerId] does not touch [DEFAULT_PLATFORM_PARAMS]. *)
Lemma getOwnerId_store (env : Env) (req : BookingRequest) (st : OAuthRequestParams) :
  store (getOwnerId env req st) = st.
Proof. cases_getOwnerId env; reflexivity. Qed.

(** [getOwnerId] calls neither the engine nor billing. *)
Lemma getOwnerId_lookups_only (env : Env) (req : BookingRequest)
    (st : OAuthRequestParams) :
  Forall (fun ev => isEngineOrBillingCall ev = false) (trace (getOwnerId env req st)).
Proof. cases_getOwnerId env; repeat constructor. Qed.

(** The owner only depends on the Authorization header. *)
Lemma getOwnerId_header (env : Env) (req req' : BookingRequest)
    (st st' : OAuthRequestParams) :
  authorization req' = authorization req ->
  outcome (getOwnerId env req' st') = outcome (getOwnerId env req st).
Proof.
  intros Heq. unfold getOwnerId. rewrite Heq. run.
  destruct (JS.whenTruthyStr _) as [token|]; cbn; [|reflexivity].
  destruct (isApiKey _ _); cbn.
  - destruct (getApiKeyFromHash env _) as [key|err]; reflexivity.
  - destruct (oAuthFlowGetOwnerId env _) as [err|[owner|err]]; reflexivity.
Qed.

(** [getOwnerId] raises exactly when the token is not an API key and token
    introspection hands back a promise that rejects; every other failure is
    logged and gives undefined. *)
Lemma getOwnerId_raises_iff (env : Env) (req : BookingRequest)
    (st : OAuthRequestParams) (e : Thrown) :
  outcome (getOwnerId env req st) = Throws e
  <-> exists token,
      JS.whenTruthyStr (JS.removeFirst "Bearer " <$> authorization req) = Some token
      /\ isApiKey token (JS.nullish (config env !! "api.apiKeyPrefix") "cal_") = false
      /\ oAuthFlowGetOwnerId env token = Returned (Rejected e).
Proof.
  unfold getOwnerId; run.
  destruct (JS.whenTruthyStr _) as [token|]; cbn.
  - destruct (isApiKey _ _) eqn:Hkey; cbn.
    + destruct (getApiKeyFromHash env _) as [key|err]; cbn;
        (split; [discriminate | intros (t & Ht & Hf & _); inversion Ht; subst;
                                rewrite Hkey in Hf; discriminate]).
    + destruct (oAuthFlowGetOwnerId env token) as [err|[owner|err]] eqn:Htok; cbn.
      * split; [discriminate|].
        intros (t & Ht & _ & Hr). inversion Ht; subst. congruence.
      * split; [discriminate|].
        intros (t & Ht & _ & Hr). inversion Ht; subst. congruence.
      * split.
        -- intros Heq. inversion Heq; subst. eauto.
        -- intros (t & Ht & _ & Hr). inversion Ht; subst. congruence.
  - split; [discriminate | intros (t & Ht & _); discriminate].
Qed.

(** The value [getOAuthClientsParams] returns is the module-level object as
    it stands after the call, and the call never throws. *)
Lemma getOAuthClientsParams_returns_defaults (env : Env) (clientId : string)
    (st : OAuthRequestParams) :
  outcome (getOAuthClientsParams env clientId st)
  = Returns (store (getOAuthClientsParams env clientId st)).
Proof.
  unfold getOAuthClientsParams; run.
  destruct (getOAuthClient env clientId) as [[client|]|err]; reflexivity.
Qed.

(** A client that is found is written into the module-level object. *)
Lemma getOAuthClientsParams_found (env : Env) (clientId : string)
    (client : OAuthClient) (st : OAuthRequestParams) :
  getOAuthClient env clientId = Resolved (Some client) ->
  store (getOAuthClientsParams env clientId st) = assignClient clientId client st.
Proof.
  intros H. unfold getOAuthClientsParams; run. now rewrite H.
Qed.

(** A missing client or a failing lookup leaves the module-level object as
    it was. *)
Lemma getOAuthClientsParams_not_found (env : Env) (clientId : string)
    (st : OAuthRequestParams) :
  (forall client, getOAuthClient env clientId <> Resolved (Some client)) ->
  store (getOAuthClientsParams env clientId st) = st.
Proof.
  intros H. unfold getOAuthClientsParams; run.
  destruct (getOAuthClient env clientId) as [[client|]|err]; try reflexivity.
  now destruct (H client).
Qed.

Lemma resolveOAuthParams_returns_defaults (env : Env)
    (oAuthClientId : option string) (st : OAuthRequestParams) :
  outcome (resolveOAuthParams env oAuthClientId st)
  = Returns (store (resolveOAuthParams env oAuthClientId st)).
Proof.
  unfold resolveOAuthParams.
  destruct (JS.whenTruthyStr oAuthClientId) as [clientId|].
  - apply getOAuthClientsParams_returns_defaults.
  - reflexivity.
Qed.

Lemma resolveOAuthParams_lookups_only (env : Env)
    (oAuthClientId : option string) (st : OAuthRequestParams) :
  Forall (fun ev => isEngineOrBillingCall ev = false)
    (trace (resolveOAuthParams env oAuthClientId st)).
Proof.
  unfold resolveOAuthParams, getOAuthClientsParams.
  destruct (JS.whenTruthyStr oAuthClientId) as [clientId|]; run.
  - destruct (getOAuthClient env clientId) as [[client|]|err];
      repeat constructor.
  - constructor.
Qed.

(** As long as the module-level object holds its initial value, a request
    without client id, with an unknown client id or with a failing client
    lookup is given the initial value, and the object keeps it. *)
Lemma resolveOAuthParams_initial (env : Env) (oAuthClientId : option string) :
  (forall clientId client,
      JS.whenTruthyStr oAuthClientId = Some clientId ->
      getOAuthClient env clientId <> Resolved (Some client)) ->
  outcome (resolveOAuthParams env oAuthClientId DEFAULT_PLATFORM_PARAMS)
  = Returns DEFAULT_PLATFORM_PARAMS
  /\ store (resolveOAuthParams env oAuthClientId DEFAULT_PLATFORM_PARAMS)
     = DEFAULT_PLATFORM_PARAMS.
Proof.
  intros H. rewrite resolveOAuthParams_returns_defaults.
  assert (Hst : store (resolveOAuthParams env oAuthClientId DEFAULT_PLATFORM_PARAMS)
                = DEFAULT_PLATFORM_PARAMS).
  { unfold resolveOAuthParams.
    destruct (JS.whenTruthyStr oAuthClientId) as [clientId|]; [|reflexivity].
    apply getOAuthClientsParams_not_found. intros client. now apply H. }
  now rewrite Hst.
Qed.

(** How a run of [createNextApiBookingRequest] that returns is made up. *)
Lemma createNextApiBookingRequest_returns (env : Env) (req : BookingRequest)
    (oAuthClientId location : option string) (st st1 : OAuthRequestParams)
    (next : NextApiBookingRequest) (evs1 : list Event) :
  createNextApiBookingRequest env req oAuthClientId location st
  = (Returns next, st1, evs1) ->
  exists owner oAuthParams,
    outcome (getOwnerId env req st) = Returns owner
    /\ outcome (resolveOAuthParams env oAuthClientId st) = Returns oAuthParams
    /\ st1 = oAuthParams
    /\ next = {| nextAuthorization := authorization req;
                 nextForceSlug := forceSlug req;
                 nextBody := withNoEmail (body req)
                               (negb (arePlatformEmailsEnabled oAuthParams));
                 nextUserId := default (-1) owner;
                 nextParams := withBookingLocation oAuthParams location |}
    /\ Forall (fun ev => isEngineOrBillingCall ev = false) evs1.
Proof.
  unfold createNextApiBookingRequest.
  pose proof (getOwnerId_store env req st) as Hst.
  pose proof (getOwnerId_lookups_only env req st) as Hev.
  unfold bind at 1. unfold store, trace in Hst, Hev.
  destruct (getOwnerId env req st) as [[[owner|e] st0] evs0]; [|discriminate].
  cbn in Hst, Hev. subst st0.
  pose proof (resolveOAuthParams_returns_defaults env oAuthClientId st) as Hres.
  pose proof (resolveOAuthParams_lookups_only env oAuthClientId st) as Hev'.
  unfold bind. unfold outcome, store, trace in Hres, Hev'.
  destruct (resolveOAuthParams env oAuthClientId st) as [[r st2] evs2].
  cbn in Hres, Hev'. subst r. cbn.
  intros H. inversion H; subst.
  exists owner, st1. repeat split; try reflexivity.
  rewrite app_nil_r. apply Forall_app. split; assumption.
Qed.

(** Lookups are neither usage increases nor cancellations. *)
Lemma lookups_no_billing (evs : list Event) :
  Forall (fun ev => isEngineOrBillingCall ev = false) evs ->
  usageEvents evs = [] /\ cancellationEvents evs = []
  /\ cancelEngineCalls evs = [] /\ instantEngineCalls evs = [].
Proof.
  induction 1 as [|ev evs Hev _ IH]; [repeat split|].
  destruct IH as (IH1 & IH2 & IH3 & IH4).
  unfold usageEvents, cancellationEvents, cancelEngineCalls, instantEngineCalls
    in *.
  destruct ev; try discriminate Hev; cbn; auto.
Qed.
(** ** Traces *)

(** The readers of a trace go through its parts. *)
Lemma usageEvents_app (evs1 evs2 : list Event) :
  usageEvents (evs1 ++ evs2) = usageEvents evs1 ++ usageEvents evs2.
Proof.
  induction evs1 as [|ev evs1 IH]; [reflexivity|].
  destruct ev; cbn; try exact IH. f_equal. exact IH.
Qed.

Lemma cancellationEvents_app (evs1 evs2 : list Event) :
  cancellationEvents (evs1 ++ evs2)
  = cancellationEvents evs1 ++ cancellationEvents evs2.
Proof.
  induction evs1 as [|ev evs1 IH]; [reflexivity|].
  destruct ev; cbn; try exact IH. f_equal. exact IH.
Qed.

Lemma cancelEngineCalls_app (evs1 evs2 : list Event) :
  cancelEngineCalls (evs1 ++ evs2)
  = cancelEngineCalls evs1 ++ cancelEngineCalls evs2.
Proof.
  induction evs1 as [|ev evs1 IH]; [reflexivity|].
  destruct ev; cbn; try exact IH. f_equal. exact IH.
Qed.

Lemma instantEngineCalls_app (evs1 evs2 : list Event) :
  instantEngineCalls (evs1 ++ evs2)
  = instantEngineCalls evs1 ++ instantEngineCalls evs2.
Proof.
  induction evs1 as [|ev evs1 IH]; [reflexivity|].
  destruct ev; cbn; try exact IH. f_equal. exact IH.
Qed.

(** [handleBookingErrors] throws, calls nothing and leaves the module-level
    object alone. *)
Lemma handleBookingErrors_throws (err : Thrown) (type : option BookingErrorType)
    (st : OAuthRequestParams) :
  exists e, handleBookingErrors err type st = (Throws e, st, []).
Proof.
  unfold handleBookingErrors, throw.
  destruct (instanceofHttpError err), (instanceofError err); eauto.
Qed.

(** Splits the reading of a trace along its parts and drops the lookups. *)
Tactic Notation "read_trace" constr(H) :=
  rewrite ?usageEvents_app, ?cancellationEvents_app, ?cancelEngineCalls_app,
    ?instantEngineCalls_app, ?H; reflexivity.
Tactic Notation "read_trace" constr(H0) constr(H) :=
  rewrite ?usageEvents_app, ?cancellationEvents_app, ?cancelEngineCalls_app,
    ?instantEngineCalls_app, ?H0, ?H; reflexivity.

(** ** Billing after a successful engine call *)

(** C4.  When the request has been assembled and [handleNewBooking] resolves
    with [booking], [createBooking] issues exactly one usage increase if the
    booking's [userId], [uid] and [startTime] are all present (for the code:
    truthy, that is a user id other than 0, a uid other than the empty string,
    a start date), for that user id, with that uid, that start time and the
    booking's [fromReschedule]; if one of the three is missing it issues
    none. *)
Theorem createBooking_usage_event
    (env : Env) (req : BookingRequest) (clientId : option string)
    (st st1 : OAuthRequestParams) (next : NextApiBookingRequest)
    (evs1 : list Event) (booking : BookingResponse) :
  createNextApiBookingRequest env (withForceSlug req (orgSlug (body req)))
    clientId (locationUrl (body req)) st = (Returns next, st1, evs1) ->
  handleNewBooking env next = Resolved booking ->
  usageEvents (trace (createBooking env req clientId st))
  = match bookingUserId booking, bookingUid booking, bookingStartTime booking with
    | Some userId, Some uid, Some startTime =>
        if negb (userId =? 0) && negb (String.eqb uid "") then
          [(userId, {| usageUid := uid;
                       usageStartTime := startTime;
                       usageFromReschedule := bookingFromReschedule booking |})]
        else []
    | _, _, _ => []
    end.
Proof.
  intros Hnext Hengine.
  destruct (createNextApiBookingRequest_returns _ _ _ _ _ _ _ _ Hnext)
    as (owner & oAuthParams & _ & _ & _ & _ & Hev).
  destruct (lookups_no_billing _ Hev) as (Husage & _).
  change (locationUrl (body req))
    with (locationUrl (body (withForceSlug req (orgSlug (body req))))) in Hnext.
  unfold createBooking; run. rewrite Hnext, Hengine. cbn -[usageEvents].
  unfold JS.whenTruthyNum, JS.whenTruthyStr, JS.truthyNum, JS.truthyStr.
  destruct (bookingUserId booking) as [userId|]; cbn -[usageEvents];
    [|read_trace Husage].
  destruct (userId =? 0); cbn -[usageEvents];
    [destruct (bookingUid booking) as [uid|], (bookingStartTime booking);
     read_trace Husage|].
  destruct (bookingUid booking) as [[|c uid]|]; cbn -[usageEvents];
    try (destruct (bookingStartTime booking); read_trace Husage).
  destruct (bookingStartTime booking) as [startTime|]; cbn -[usageEvents];
    [|read_trace Husage].
  destruct (increaseUsageByUserId env _ _) as [[]|err]; cbn -[usageEvents];
    [read_trace Husage|].
  destruct (handleBookingErrors_throws err None st1) as [e ->].
  cbn -[usageEvents]. read_trace Husage.
Qed.

(** C5.  When the booking id is given, the request has been assembled and
    [handleCancelBooking] resolves with [res], [cancelBooking] issues no usage
    cancellation if [res.onlyRemovedAttendee] is true, and exactly one, for
    [res.bookingUid], if it is false. *)
Theorem cancelBooking_cancellation_event
    (env : Env) (req : BookingRequest) (bookingId : string)
    (clientId : option string) (st st1 : OAuthRequestParams)
    (next : NextApiBookingRequest) (evs1 : list Event) (res : CancelResult) :
  JS.truthyStr (Some bookingId) = true ->
  createNextApiBookingRequest env (withBodyId req (JS.parseInt bookingId))
    clientId None st = (Returns next, st1, evs1) ->
  handleCancelBooking env next = Resolved res ->
  cancellationEvents (trace (cancelBooking env req (Some bookingId) clientId st))
  = if onlyRemovedAttendee res then [] else [cancelledBookingUid res].
Proof.
  intros Hid Hnext Hengine.
  destruct (createNextApiBookingRequest_returns _ _ _ _ _ _ _ _ Hnext)
    as (owner & oAuthParams & _ & _ & _ & _ & Hev).
  destruct (lookups_no_billing _ Hev) as (_ & Hcancel & _).
  destruct bookingId as [|c bookingId]; [discriminate|].
  unfold cancelBooking.
  cbn [JS.whenTruthyStr JS.truthyStr]. run.
  rewrite Hnext, Hengine. cbn -[cancellationEvents].
  destruct (onlyRemovedAttendee res); cbn -[cancellationEvents];
    [read_trace Hcancel|].
  destruct (cancelUsageByBookingUid env _) as [[]|err];
    cbn -[cancellationEvents]; [read_trace Hcancel|].
  destruct (handleBookingErrors_throws err None st1) as [e ->].
  cbn -[cancellationEvents]. read_trace Hcancel.
Qed.


(** C6, evaluated.  The server's zone leaves daylight-saving time at
    2024-10-27T01:00:00Z.  An instant booking made five seconds before that
    (02:59:55 local) has its usage increase dated 3610 seconds after the
    current time: [setSeconds] moves the local time to 03:00:05, which is read
    back with the new offset.  One made half an hour after the change (the
    second 02:30:00 local) has it dated 3590 seconds before the current time:
    02:30:10 is read back with the old offset.  In both the engine is given
    user id -1 and exactly one increase is issued; in a zone with one offset
    the date is the current time plus ten seconds. *)
Theorem createInstantBooking_daylight_saving :
  usageEvents
    (trace (createInstantBooking
              (atTime (endOfDaylightSaving - 5000) leavingDaylightSaving plainEnv)
              plainRequest None DEFAULT_PLATFORM_PARAMS))
  = [(9, {| usageUid := "xyz";
            usageStartTime := (endOfDaylightSaving - 5000) + 3610000;
            usageFromReschedule := None |})]
  /\ usageEvents
       (trace (createInstantBooking
                 (atTime (endOfDaylightSaving + 1800000) leavingDaylightSaving
                    plainEnv)
                 plainRequest None DEFAULT_PLATFORM_PARAMS))
     = [(9, {| usageUid := "xyz";
               usageStartTime := (endOfDaylightSaving + 1800000) - 3590000;
               usageFromReschedule := None |})]
  /\ usageEvents
       (trace (createInstantBooking
                 (atTime (endOfDaylightSaving - 5000) (fun _ _ => 0) plainEnv)
                 plainRequest None DEFAULT_PLATFORM_PARAMS))
     = [(9, {| usageUid := "xyz";
               usageStartTime := (endOfDaylightSaving - 5000) + 10000;
               usageFromReschedule := None |})]
  /\ map nextUserId
       (instantEngineCalls
          (trace (createInstantBooking
                    (atTime (endOfDaylightSaving - 5000) leavingDaylightSaving
                       plainEnv)
                    plainRequest None DEFAULT_PLATFORM_PARAMS)))
     = [-1].
Proof. repeat split; vm_compute; reflexivity. Qed.

(** C9.  In every request [createNextApiBookingRequest] assembles, the body's
    [noEmail] is the negation of [arePlatformEmailsEnabled] of the resolved
    OAuth parameters, the same flag that is copied onto the request. *)
Theorem createNextApiBookingRequest_noEmail
    (env : Env) (req : BookingRequest) (oAuthClientId location : option string)
    (st st1 : OAuthRequestParams) (next : NextApiBookingRequest)
    (evs1 : list Event) :
  createNextApiBookingRequest env req oAuthClientId location st
  = (Returns next, st1, evs1) ->
  exists oAuthParams,
    outcome (resolveOAuthParams env oAuthClientId st) = Returns oAuthParams
    /\ noEmail (nextBody next) = Some (negb (arePlatformEmailsEnabled oAuthParams))
    /\ arePlatformEmailsEnabled (nextParams next)
       = arePlatformEmailsEnabled oAuthParams.
Proof.
  intros Hnext.
  destruct (createNextApiBookingRequest_returns _ _ _ _ _ _ _ _ Hnext)
    as (owner & oAuthParams & _ & Hres & _ & Hshape & _).
  exists oAuthParams. rewrite Hshape. repeat split. exact Hres.
Qed.

(** ** Handlers without awaited billing *)

(** The usage increases of a recurring booking are issued one per created
    booking that has a user id, a uid and a start time, in the order of the
    list; their outcome is dropped, so the loop always completes. *)
Lemma increaseUsageForEach_run (env : Env) (createdBookings : list BookingResponse)
    (st : OAuthRequestParams) :
  outcome (increaseUsageForEach env createdBookings st) = Returns tt
  /\ store (increaseUsageForEach env createdBookings st) = st
  /\ trace (increaseUsageForEach env createdBookings st)
     = omap (fun booking =>
               match JS.whenTruthyNum (bookingUserId booking),
                     JS.whenTruthyStr (bookingUid booking),
                     bookingStartTime booking with
               | Some userId, Some uid, Some startTime =>
                   Some (IncreaseUsageByUserId userId
                           {| usageUid := uid;
                              usageStartTime := startTime;
                              usageFromReschedule := None |})
               | _, _, _ => None
               end) createdBookings.
Proof.
  induction createdBookings as [|booking rest IH]; [repeat split|].
  destruct IH as (IHo & IHs & IHt).
  unfold outcome, store, trace in *.
  cbn [increaseUsageForEach omap list_omap]. unfold bind at 1.
  destruct (JS.whenTruthyNum (bookingUserId booking)) as [userId|],
    (JS.whenTruthyStr (bookingUid booking)) as [uid|],
    (bookingStartTime booking) as [startTime|]; run;
    try (destruct (increaseUsageByUserId env userId _) as [[]|err]; cbn);
    destruct (increaseUsageForEach env rest st) as [[r st'] evs];
    cbn in *; subst; repeat split.
Qed.

(** [markNoShow] never calls billing, whatever the engine does; a failure of
    the engine with a message is rethrown with that message and status 500. *)
Lemma markNoShow_no_billing (env : Env) (userId : Z)
    (attendees : option (list (string * bool))) (host : option bool)
    (bookingUid : string) (st : OAuthRequestParams) :
  usageEvents (trace (markNoShow env userId attendees host bookingUid st)) = []
  /\ cancellationEvents (trace (markNoShow env userId attendees host bookingUid st))
     = [].
Proof.
  unfold markNoShow; run.
  destruct (handleMarkNoShow env _) as [response|err]; cbn; [split; reflexivity|].
  destruct (handleBookingErrors_throws err (Some no_show) st) as [e ->].
  split; reflexivity.
Qed.

Lemma markNoShow_db_down :
  outcome (markNoShow plainEnv 3 None None "abc" DEFAULT_PLATFORM_PARAMS)
  = Throws (HttpException "db down" 500).
Proof. reflexivity. Qed.

(** ** Cancelling with a booking id that is not a number *)



(** ** The owner of a credential *)

(** X17.  When both configuration entries hold the prefix, an Authorization
    header "Bearer <prefix><secret>" is resolved through the key store: the prefix
    is stripped, the secret hashed, the record looked up by the hash, and the
    record's user id (or undefined, when there is none or the store fails) is
    the result. *)
Lemma getOwnerId_api_key_agreeing_config
    (env : Env) (req : BookingRequest) (st : OAuthRequestParams)
    (prefix secret : string) :
  config env !! "api.apiKeyPrefix" = Some prefix ->
  config env !! "api.keyPrefix" = Some prefix ->
  prefix +:+ secret <> "" ->
  authorization req = Some ("Bearer " +:+ (prefix +:+ secret)) ->
  getOwnerId env req st
  = match getApiKeyFromHash env (hashAPIKey env secret) with
    | Resolved keyData =>
        (Returns (keyUserId <$> keyData), st,
         [GetApiKeyFromHash (hashAPIKey env secret)])
    | Rejected err =>
        (Returns None, st,
         [GetApiKeyFromHash (hashAPIKey env secret); LoggerError err])
    end.
Proof.
  intros Hdetect Hstrip Hne Hauth.
  unfold getOwnerId. rewrite Hauth, Hdetect, Hstrip.
  change (JS.removeFirst "Bearer " <$> Some ("Bearer " +:+ (prefix +:+ secret)))
    with (Some (JS.removeFirst "Bearer " ("Bearer " +:+ (prefix +:+ secret)))).
  rewrite removeFirst_prefix.
  unfold JS.whenTruthyStr, JS.truthyStr.
  destruct (prefix +:+ secret) as [|c token] eqn:Htoken; [congruence|].
  rewrite <- Htoken.
  unfold isApiKey, stripApiKey, JS.nullish. cbn [default].
  rewrite startsWith_app, drop_app. run.
  destruct (getApiKeyFromHash env (hashAPIKey env secret)); reflexivity.
Qed.

(** X16.  Without a rejecting promise from token introspection,
    [getOwnerId] returns: absent credentials, store failures and synchronous throws all
    end in a value. *)
Lemma getOwnerId_returns_unless_rejected
    (env : Env) (req : BookingRequest) (st : OAuthRequestParams) :
  (forall token e, oAuthFlowGetOwnerId env token <> Returned (Rejected e)) ->
  exists owner, outcome (getOwnerId env req st) = Returns owner.
Proof.
  intros H.
  destruct (outcome (getOwnerId env req st)) as [owner|e] eqn:Hrun; [eauto|].
  apply getOwnerId_raises_iff in Hrun as (token & _ & _ & Hrej).
  now destruct (H token e).
Qed.

(** C2, evaluated.  The key prefix "key_" is configured under
    "api.keyPrefix", the entry [stripApiKey] is given; [isApiKey] is asked
    with "api.apiKeyPrefix", which is not set, and so with "cal_".  The
    credential "key_s3cret", whose secret has a stored record owned by user 7,
    is not recognised as an API key: the key store is never asked, the
    credential goes to token introspection, and the result is undefined. *)
Theorem getOwnerId_prefix_entries_disagree :
  getApiKeyFromHash (exampleEnv keyPrefixConfig noTokens)
    (hashAPIKey (exampleEnv keyPrefixConfig noTokens) "s3cret")
  = Resolved (Some {| keyUserId := 7 |})
  /\ getOwnerId (exampleEnv keyPrefixConfig noTokens)
       (exampleRequest (Some "Bearer key_s3cret")) DEFAULT_PLATFORM_PARAMS
     = (Returns None, DEFAULT_PLATFORM_PARAMS, [OAuthFlowGetOwnerId "key_s3cret"])
  /\ getOwnerId (exampleEnv agreeingConfig noTokens)
       (exampleRequest (Some "Bearer key_s3cret")) DEFAULT_PLATFORM_PARAMS
     = (Returns (Some 7), DEFAULT_PLATFORM_PARAMS,
        [GetApiKeyFromHash "sha256:s3cret"]).
Proof. repeat split; vm_compute; reflexivity. Qed.

(** C8, evaluated.  The credential is an access token and token
    introspection returns a promise that rejects.  [getOwnerId] returns that
    promise without awaiting it, so the [catch] block does not run: nothing is
    logged and the rejection reaches the caller.  In [createInstantBooking]
    the call stands outside the [try], and the error leaves the handler as it
    is. *)
Theorem getOwnerId_rejected_introspection_escapes :
  getOwnerId (exampleEnv ∅ failingTokens)
    (exampleRequest (Some "Bearer access-token")) DEFAULT_PLATFORM_PARAMS
  = (Throws (JsError (Some "introspection down")), DEFAULT_PLATFORM_PARAMS,
     [OAuthFlowGetOwnerId "access-token"])
  /\ createInstantBooking (exampleEnv ∅ failingTokens)
       (exampleRequest (Some "Bearer access-token")) None DEFAULT_PLATFORM_PARAMS
     = (Throws (JsError (Some "introspection down")), DEFAULT_PLATFORM_PARAMS,
        [OAuthFlowGetOwnerId "access-token"]).
Proof. split; vm_compute; reflexivity. Qed.

(** ** The default OAuth parameters *)

(** C1, evaluated.  A first request names the client "acme", which exists;
    a second request names no client.  The first request has written acme's
    parameters into the module-level object, and the second request is given
    them: client id "acme", acme's redirect URLs, emails enabled, and so
    [noEmail] false, instead of the empty defaults.  The same happens to a
    request that names an unknown client or whose client lookup fails. *)
Theorem default_params_carried_over :
  acmeParams <> DEFAULT_PLATFORM_PARAMS
  /\ (nextParams <$> returned (afterAcme None)) = Some acmeParams
  /\ (noEmail ∘ nextBody <$> returned (afterAcme None)) = Some (Some false)
  /\ (nextParams <$> returned (afterAcme (Some ""))) = Some acmeParams
  /\ (nextParams <$> returned (afterAcme (Some "unknown"))) = Some acmeParams
  /\ (nextParams <$> returned (afterAcme (Some "down"))) = Some acmeParams
  /\ store (afterAcme None) = acmeParams.
Proof. repeat split; try discriminate; vm_compute; reflexivity. Qed.

(** ** The theorems at concrete requests *)

(** A booking made with the stored API key for the client "acme": one usage
    increase, for user 7 and uid "abc". *)
Lemma createBooking_usage_event_witness :
  createNextApiBookingRequest keyedEnv
    (withForceSlug keyedRequest (orgSlug (body keyedRequest)))
    (Some "acme") (locationUrl (body keyedRequest)) DEFAULT_PLATFORM_PARAMS
  = (Returns (exampleAssembled (Some "Bearer key_s3cret") (Some "acme-org")
                None 7 acmeParams),
     acmeParams, [GetApiKeyFromHash "sha256:s3cret"; GetOAuthClient "acme"])
  /\ handleNewBooking keyedEnv
       (exampleAssembled (Some "Bearer key_s3cret") (Some "acme-org") None 7
          acmeParams)
     = Resolved exampleBooking
  /\ usageEvents
       (trace (createBooking keyedEnv keyedRequest (Some "acme")
                 DEFAULT_PLATFORM_PARAMS))
     = [(7, {| usageUid := "abc";
               usageStartTime := 1700003600000;
               usageFromReschedule := Some false |})].
Proof.
  split; [vm_compute; reflexivity|].
  split; [reflexivity|].
  apply (createBooking_usage_event keyedEnv keyedRequest (Some "acme")
           DEFAULT_PLATFORM_PARAMS acmeParams
           (exampleAssembled (Some "Bearer key_s3cret") (Some "acme-org") None 7
              acmeParams)
           [GetApiKeyFromHash "sha256:s3cret"; GetOAuthClient "acme"]
           exampleBooking);
    [vm_compute; reflexivity | reflexivity].
Defined.

(** Cancelling booking "42": the whole booking is removed, so one usage
    cancellation, for uid "abc". *)
Lemma cancelBooking_cancellation_event_witness :
  JS.truthyStr (Some "42") = true
  /\ createNextApiBookingRequest keyedEnv
       (withBodyId keyedRequest (JS.parseInt "42")) None None
       DEFAULT_PLATFORM_PARAMS
     = (Returns (exampleAssembled (Some "Bearer key_s3cret") None
                   (Some (JS.Num 42)) 7 DEFAULT_PLATFORM_PARAMS),
        DEFAULT_PLATFORM_PARAMS, [GetApiKeyFromHash "sha256:s3cret"])
  /\ handleCancelBooking keyedEnv
       (exampleAssembled (Some "Bearer key_s3cret") None (Some (JS.Num 42)) 7
          DEFAULT_PLATFORM_PARAMS)
     = Resolved exampleCancelResult
  /\ cancellationEvents
       (trace (cancelBooking keyedEnv keyedRequest (Some "42") None
                 DEFAULT_PLATFORM_PARAMS))
     = ["abc"].
Proof.
  split; [reflexivity|].
  split; [vm_compute; reflexivity|].
  split; [reflexivity|].
  apply (cancelBooking_cancellation_event keyedEnv keyedRequest "42" None
           DEFAULT_PLATFORM_PARAMS DEFAULT_PLATFORM_PARAMS
           (exampleAssembled (Some "Bearer key_s3cret") None (Some (JS.Num 42)) 7
              DEFAULT_PLATFORM_PARAMS)
           [GetApiKeyFromHash "sha256:s3cret"] exampleCancelResult);
    [reflexivity | vm_compute; reflexivity | reflexivity].
Defined.


(** A request for the client "acme", whose emails are enabled: [noEmail] is
    false. *)
Lemma createNextApiBookingRequest_noEmail_witness :
  createNextApiBookingRequest keyedEnv keyedRequest (Some "acme") None
    DEFAULT_PLATFORM_PARAMS
  = (Returns (exampleAssembled (Some "Bearer key_s3cret") None None 7 acmeParams),
     acmeParams, [GetApiKeyFromHash "sha256:s3cret"; GetOAuthClient "acme"])
  /\ exists oAuthParams,
      outcome (resolveOAuthParams keyedEnv (Some "acme") DEFAULT_PLATFORM_PARAMS)
      = Returns oAuthParams
      /\ noEmail (nextBody (exampleAssembled (Some "Bearer key_s3cret") None None
                              7 acmeParams))
         = Some (negb (arePlatformEmailsEnabled oAuthParams))
      /\ arePlatformEmailsEnabled
           (nextParams (exampleAssembled (Some "Bearer key_s3cret") None None 7
                          acmeParams))
         = arePlatformEmailsEnabled oAuthParams.
Proof.
  split; [vm_compute; reflexivity|].
  apply (createNextApiBookingRequest_noEmail keyedEnv keyedRequest (Some "acme")
           None DEFAULT_PLATFORM_PARAMS acmeParams
           (exampleAssembled (Some "Bearer key_s3cret") None None 7 acmeParams)
           [GetApiKeyFromHash "sha256:s3cret"; GetOAuthClient "acme"]).
  vm_compute; reflexivity.
Defined.


(** * Further properties of the controller *)

(** ** What moves the module-level object *)

Section Moves.

Variable R : OAuthRequestParams -> OAuthRequestParams -> Prop.
Hypothesis R_refl : forall st, R st st.
Hypothesis R_trans : forall st1 st2 st3, R st1 st2 -> R st2 st3 -> R st1 st3.

Lemma moves_ret {A} (a : A) : moves R (ret a).
Proof. intros st. apply R_refl. Qed.

Lemma moves_throw {A} (e : Thrown) : moves R (@throw A e).
Proof. intros st. apply R_refl. Qed.

Lemma moves_emit (ev : Event) : moves R (emit ev).
Proof. intros st. apply R_refl. Qed.

Lemma moves_await {A} (p : Settled A) : moves R (await p).
Proof. intros st. destruct p; apply R_refl. Qed.

Lemma moves_readDefaults : moves R readDefaults.
Proof. intros st. apply R_refl. Qed.

Lemma moves_bind {A B} (m : M A) (k : A -> M B) :
  moves R m -> (forall a, moves R (k a)) -> moves R (bind m k).
Proof.
  intros Hm Hk st. specialize (Hm st). unfold bind, store in *.
  destruct (m st) as [[[a|e] st1] evs1]; cbn in *; [|exact Hm].
  specialize (Hk a st1).
  destruct (k a st1) as [[r st2] evs2]; cbn in *. eauto.
Qed.

Lemma moves_tryCatch {A} (m : M A) (h : Thrown -> M A) :
  moves R m -> (forall e, moves R (h e)) -> moves R (tryCatch m h).
Proof.
  intros Hm Hh st. specialize (Hm st). unfold tryCatch, store in *.
  destruct (m st) as [[[a|e] st1] evs1]; cbn in *; [exact Hm|].
  specialize (Hh e st1).
  destruct (h e st1) as [[r st2] evs2]; cbn in *. eauto.
Qed.

Lemma moves_detached {A} (m : M A) : moves R m -> moves R (detached m).
Proof.
  intros Hm st. specialize (Hm st). unfold detached, store in *.
  destruct (m st) as [[r st1] evs1]; exact Hm.
Qed.

Lemma moves_handleBookingErrors (err : Thrown) (type : option BookingErrorType) :
  moves R (handleBookingErrors err type).
Proof.
  unfold handleBookingErrors.
  destruct (instanceofHttpError err), (instanceofError err);
    apply moves_throw.
Qed.

Lemma moves_orElseThrow {A} (r : option A) (msg : string) :
  moves R (orElseThrow r msg).
Proof. destruct r; [apply moves_ret | apply moves_throw]. Qed.

Lemma moves_getOwnerId (env : Env) (req : BookingRequest) :
  moves R (getOwnerId env req).
Proof.
  intros st. rewrite getOwnerId_store. apply R_refl.
Qed.

Lemma moves_increaseUsageForEach (env : Env) (bs : list BookingResponse) :
  moves R (increaseUsageForEach env bs).
Proof.
  induction bs as [|b bs IH]; [apply moves_ret|].
  cbn [increaseUsageForEach]. apply moves_bind; [|intros _; exact IH].
  destruct (JS.whenTruthyNum (bookingUserId b)),
    (JS.whenTruthyStr (bookingUid b)), (bookingStartTime b);
    try apply moves_ret.
  apply moves_detached, moves_bind; [apply moves_emit|intros _; apply moves_await].
Qed.

(** Solves [moves] goals over the combinators. *)
Ltac moves_step :=
  first
    [ apply moves_ret | apply moves_throw | apply moves_emit | apply moves_await
    | apply moves_readDefaults | apply moves_handleBookingErrors
    | apply moves_orElseThrow | apply moves_getOwnerId
    | apply moves_increaseUsageForEach
    | apply moves_bind; [|intro] | apply moves_tryCatch; [|intro]
    | apply moves_detached
    | match goal with
      | |- moves _ (match ?x with _ => _ end) => destruct x
      | |- moves _ (if ?x then _ else _) => destruct x
      end ].

(** Once the lookup of the client moves the object along [R], so do the
    assembly of the request and all five handlers. *)
Lemma moves_createNextApiBookingRequest (env : Env) (req : BookingRequest)
    (clientId location : option string) :
  moves R (resolveOAuthParams env clientId) ->
  moves R (createNextApiBookingRequest env req clientId location).
Proof.
  intros H. unfold createNextApiBookingRequest.
  apply moves_bind; [apply moves_getOwnerId | intro].
  apply moves_bind; [exact H | intro; apply moves_ret].
Qed.

Lemma moves_handlers (env : Env) (req : BookingRequest)
    (clientId : option string) :
  moves R (resolveOAuthParams env clientId) ->
  moves R (createBooking env req clientId)
  /\ (forall bookingId, moves R (cancelBooking env req bookingId clientId))
  /\ moves R (createRecurringBooking env req clientId)
  /\ moves R (createInstantBooking env req clientId).
Proof.
  intros H.
  assert (Hnext : forall req' location,
             moves R (createNextApiBookingRequest env req' clientId location))
    by (intros; now apply moves_createNextApiBookingRequest).
  repeat split; [| intros bookingId | |].
  - unfold createBooking. cbv zeta.
    repeat first [apply Hnext | moves_step].
  - unfold cancelBooking. cbv zeta.
    repeat first [apply Hnext | moves_step].
  - unfold createRecurringBooking. cbv zeta.
    repeat first [apply Hnext | moves_step].
  - unfold createInstantBooking. cbv zeta.
    repeat first [apply Hnext | moves_step].
Qed.

End Moves.

(** ** What leaves a handler *)

(** [handleBookingErrors] throws [classify err type]. *)
Lemma handleBookingErrors_classify (err : Thrown) (type : option BookingErrorType)
    (st : OAuthRequestParams) :
  handleBookingErrors err type st = (Throws (classify err type), st, []).
Proof. destruct err; reflexivity. Qed.

(** A [try] block whose [catch] hands the error to [handleBookingErrors],
    followed by the [throw] after the statement, lets out a value or an
    [HttpException], whatever the block does. *)
Lemma guarded_returnsOrHttpException {A} (block : M (option A))
    (type : option BookingErrorType) (msg : string) (st : OAuthRequestParams) :
  returnsOrHttpException
    (outcome ((r <- tryCatch block
                      (fun err => handleBookingErrors err type ;; ret None) ;;
               orElseThrow r msg) st)).
Proof.
  run. destruct (block st) as [[[[a|]|e] st1] evs1]; cbn; try exact I.
  rewrite handleBookingErrors_classify. destruct e; exact I.
Qed.

(** X1.  Whatever the owner lookup, the client lookup, the engine and the
    billing service do, [createBooking], [cancelBooking],
    [createRecurringBooking] and [markNoShow] return a value or throw an
    [HttpException]: no other thrown value leaves them. *)
Theorem handlers_throw_only_HttpException
    (env : Env) (req : BookingRequest) (clientId bookingId : option string)
    (userId : Z) (attendees : option (list (string * bool)))
    (host : option bool) (bookingUid : string) (st : OAuthRequestParams) :
  returnsOrHttpException (outcome (createBooking env req clientId st))
  /\ returnsOrHttpException (outcome (cancelBooking env req bookingId clientId st))
  /\ returnsOrHttpException (outcome (createRecurringBooking env req clientId st))
  /\ returnsOrHttpException
       (outcome (markNoShow env userId attendees host bookingUid st)).
Proof.
  repeat split.
  - apply guarded_returnsOrHttpException.
  - unfold cancelBooking.
    destruct (JS.whenTruthyStr bookingId); [|exact I].
    apply guarded_returnsOrHttpException.
  - apply guarded_returnsOrHttpException.
  - apply guarded_returnsOrHttpException.
Qed.

(** X2.  [createInstantBooking] returns a value, throws an [HttpException],
    or throws what its first owner lookup, which stands before the [try],
    threw. *)
Theorem createInstantBooking_thrown
    (env : Env) (req : BookingRequest) (clientId : option string)
    (st : OAuthRequestParams) :
  match outcome (createInstantBooking env req clientId st) with
  | Returns _ => True
  | Throws e =>
      (exists response status, e = HttpException response status)
      \/ outcome (getOwnerId env req st) = Throws e
  end.
Proof.
  unfold createInstantBooking. cbv zeta. unfold bind at 1.
  destruct (getOwnerId env req st) as [[[owner|e] st0] evs0] eqn:Hown;
    [|cbn; now right].
  pose proof (fun block =>
                guarded_returnsOrHttpException (A := ApiResponse InstantMeeting)
                  block (Some instant) "Could not create instant booking." st0)
    as H.
  match goal with
  | |- context [bind (tryCatch ?block _) _ st0] => specialize (H block)
  end.
  unfold outcome in *.
  match type of H with
  | returnsOrHttpException (fst (fst ?run)) =>
      destruct run as [[[r|e] st2] evs2]
  end; cbn in *; [exact I|].
  destruct e; try contradiction. left. eauto.
Qed.

(** ** The course of a booking *)

(** X3.  When [handleNewBooking] rejects, [createBooking] calls billing not
    at all: its calls are the lookups of the assembly followed by the one
    engine call, and it throws the engine's error as [handleBookingErrors]
    classifies it (status and message of an [HttpError], otherwise 500). *)
Theorem createBooking_engine_failure
    (env : Env) (req : BookingRequest) (clientId : option string)
    (st st1 : OAuthRequestParams) (next : NextApiBookingRequest)
    (evs1 : list Event) (err : Thrown) :
  createNextApiBookingRequest env (withForceSlug req (orgSlug (body req)))
    clientId (locationUrl (body req)) st = (Returns next, st1, evs1) ->
  handleNewBooking env next = Rejected err ->
  createBooking env req clientId st
  = (Throws (classify err None), st1, evs1 ++ [HandleNewBooking next]).
Proof.
  intros Hnext Hengine.
  change (locationUrl (body req))
    with (locationUrl (body (withForceSlug req (orgSlug (body req))))) in Hnext.
  unfold createBooking; run. rewrite Hnext, Hengine. cbn.
  rewrite handleBookingErrors_classify. cbn.
  now rewrite !app_nil_r.
Qed.

(** X4.  When the engine has made the booking and the usage increase then
    rejects, [createBooking] does not return the booking: it throws the
    billing error, classified like an engine error.  The engine call and the
    billing call have both been made. *)
Theorem createBooking_billing_failure
    (env : Env) (req : BookingRequest) (clientId : option string)
    (st st1 : OAuthRequestParams) (next : NextApiBookingRequest)
    (evs1 : list Event) (booking : BookingResponse)
    (userId : Z) (uid : string) (startTime : Z) (err : Thrown) :
  createNextApiBookingRequest env (withForceSlug req (orgSlug (body req)))
    clientId (locationUrl (body req)) st = (Returns next, st1, evs1) ->
  handleNewBooking env next = Resolved booking ->
  JS.whenTruthyNum (bookingUserId booking) = Some userId ->
  JS.whenTruthyStr (bookingUid booking) = Some uid ->
  bookingStartTime booking = Some startTime ->
  increaseUsageByUserId env userId
    {| usageUid := uid;
       usageStartTime := startTime;
       usageFromReschedule := bookingFromReschedule booking |} = Rejected err ->
  createBooking env req clientId st
  = (Throws (classify err None), st1,
     evs1 ++ [HandleNewBooking next;
              IncreaseUsageByUserId userId
                {| usageUid := uid;
                   usageStartTime := startTime;
                   usageFromReschedule := bookingFromReschedule booking |}]).
Proof.
  intros Hnext Hengine Hu Hs Ht Hbill.
  change (locationUrl (body req))
    with (locationUrl (body (withForceSlug req (orgSlug (body req))))) in Hnext.
  unfold createBooking; run. rewrite Hnext, Hengine. cbn.
  rewrite Hu, Hs, Ht. cbn. rewrite Hbill. cbn.
  rewrite handleBookingErrors_classify. cbn.
  now rewrite !app_nil_r.
Qed.

(** X5.  When the engine resolves and billing does not reject,
    [createBooking] returns the engine's booking unchanged in a success
    envelope, and its calls are, in this order: the lookups of the assembly,
    one call of [handleNewBooking], then the usage increases. *)
Theorem createBooking_success
    (env : Env) (req : BookingRequest) (clientId : option string)
    (st st1 : OAuthRequestParams) (next : NextApiBookingRequest)
    (evs1 : list Event) (booking : BookingResponse) :
  createNextApiBookingRequest env (withForceSlug req (orgSlug (body req)))
    clientId (locationUrl (body req)) st = (Returns next, st1, evs1) ->
  handleNewBooking env next = Resolved booking ->
  (forall userId usage, increaseUsageByUserId env userId usage = Resolved tt) ->
  outcome (createBooking env req clientId st)
  = Returns {| status := "success"; data := booking |}
  /\ store (createBooking env req clientId st) = st1
  /\ trace (createBooking env req clientId st)
     = evs1 ++ HandleNewBooking next
          :: map (fun '(userId, usage) => IncreaseUsageByUserId userId usage)
               (usageEvents (trace (createBooking env req clientId st))).
Proof.
  intros Hnext Hengine Hbill.
  destruct (createNextApiBookingRequest_returns _ _ _ _ _ _ _ _ Hnext)
    as (owner & oAuthParams & _ & _ & _ & _ & Hev).
  destruct (lookups_no_billing _ Hev) as (Husage & _).
  change (locationUrl (body req))
    with (locationUrl (body (withForceSlug req (orgSlug (body req))))) in Hnext.
  unfold createBooking; run. rewrite Hnext, Hengine. cbn -[usageEvents].
  destruct (JS.whenTruthyNum (bookingUserId booking)) as [userId|],
    (JS.whenTruthyStr (bookingUid booking)) as [uid|],
    (bookingStartTime booking) as [startTime|];
    cbn -[usageEvents]; rewrite ?Hbill; cbn -[usageEvents];
    rewrite ?usageEvents_app, ?Husage, ?app_nil_r; cbn;
    repeat split; now rewrite <- ?app_assoc.
Qed.

(** X6.  The request [createBooking] hands to the engine carries the
    payload's [orgSlug] as its x-cal-force-slug header, whatever header the
    request came with, and the payload's [locationUrl] as its
    [platformBookingLocation]; the payload fields themselves are passed on
    unchanged. *)
Theorem createBooking_engine_request
    (env : Env) (req : BookingRequest) (clientId : option string)
    (st st1 : OAuthRequestParams) (next : NextApiBookingRequest)
    (evs1 : list Event) :
  createNextApiBookingRequest env (withForceSlug req (orgSlug (body req)))
    clientId (locationUrl (body req)) st = (Returns next, st1, evs1) ->
  nextForceSlug next = orgSlug (body req)
  /\ platformBookingLocation (nextParams next) = locationUrl (body req)
  /\ nextAuthorization next = authorization req
  /\ (id (nextBody next), orgSlug (nextBody next), locationUrl (nextBody next),
      payload (nextBody next))
     = (id (body req), orgSlug (body req), locationUrl (body req),
        payload (body req))
  /\ exists rest,
      trace (createBooking env req clientId st)
      = evs1 ++ HandleNewBooking next :: rest.
Proof.
  intros Hnext.
  destruct (createNextApiBookingRequest_returns _ _ _ _ _ _ _ _ Hnext)
    as (owner & oAuthParams & _ & _ & _ & Hshape & _).
  repeat (split; [rewrite Hshape; reflexivity|]).
  change (locationUrl (body req))
    with (locationUrl (body (withForceSlug req (orgSlug (body req))))) in Hnext.
  unfold createBooking; run. rewrite Hnext. cbn.
  destruct (handleNewBooking env next) as [booking|err]; cbn.
  - destruct (JS.whenTruthyNum (bookingUserId booking)) as [userId|],
      (JS.whenTruthyStr (bookingUid booking)) as [uid|],
      (bookingStartTime booking) as [startTime|]; cbn;
      try (eexists; rewrite ?app_nil_r, <- ?app_assoc; reflexivity).
    destruct (increaseUsageByUserId env userId _) as [[]|err]; cbn;
      rewrite ?handleBookingErrors_classify; cbn;
      eexists; rewrite ?app_nil_r, <- ?app_assoc; reflexivity.
  - rewrite handleBookingErrors_classify. cbn.
    eexists. rewrite ?app_nil_r, <- ?app_assoc. reflexivity.
Qed.

(** ** The course of a cancellation *)

(** X7.  When [handleCancelBooking] rejects, [cancelBooking] issues no usage
    cancellation: its calls are the lookups of the assembly and the one engine
    call, and it throws the engine's error as [handleBookingErrors] classifies
    it without a type, so with the template of a booking creation
    ("Error while creating booking.") when the error has no message of its
    own. *)
Theorem cancelBooking_engine_failure
    (env : Env) (req : BookingRequest) (bookingId : string)
    (clientId : option string) (st st1 : OAuthRequestParams)
    (next : NextApiBookingRequest) (evs1 : list Event) (err : Thrown) :
  JS.truthyStr (Some bookingId) = true ->
  createNextApiBookingRequest env (withBodyId req (JS.parseInt bookingId))
    clientId None st = (Returns next, st1, evs1) ->
  handleCancelBooking env next = Rejected err ->
  cancelBooking env req (Some bookingId) clientId st
  = (Throws (classify err None), st1, evs1 ++ [HandleCancelBooking next])
  /\ classify (JsError None) None
     = HttpException "Error while creating booking." 500.
Proof.
  intros Hid Hnext Hengine. split; [|reflexivity].
  destruct bookingId as [|c bookingId]; [discriminate|].
  unfold cancelBooking. cbn [JS.whenTruthyStr JS.truthyStr]. run.
  rewrite Hnext, Hengine. cbn -[classify].
  rewrite handleBookingErrors_classify. cbn -[classify].
  now rewrite !app_nil_r.
Qed.

(** X8.  When the engine resolves and billing does not reject,
    [cancelBooking] returns the engine's [bookingId], [bookingUid] and
    [onlyRemovedAttendee] in a success envelope, and the usage cancellation,
    if there is one, comes after the engine call. *)
Theorem cancelBooking_success
    (env : Env) (req : BookingRequest) (bookingId : string)
    (clientId : option string) (st st1 : OAuthRequestParams)
    (next : NextApiBookingRequest) (evs1 : list Event) (res : CancelResult) :
  JS.truthyStr (Some bookingId) = true ->
  createNextApiBookingRequest env (withBodyId req (JS.parseInt bookingId))
    clientId None st = (Returns next, st1, evs1) ->
  handleCancelBooking env next = Resolved res ->
  (forall uid, cancelUsageByBookingUid env uid = Resolved tt) ->
  cancelBooking env req (Some bookingId) clientId st
  = (Returns {| status := "success"; data := res |}, st1,
     evs1 ++ HandleCancelBooking next
          :: (if onlyRemovedAttendee res then []
              else [CancelUsageByBookingUid (cancelledBookingUid res)])).
Proof.
  intros Hid Hnext Hengine Hbill.
  destruct bookingId as [|c bookingId]; [discriminate|].
  unfold cancelBooking. cbn [JS.whenTruthyStr JS.truthyStr]. run.
  rewrite Hnext, Hengine. cbn.
  destruct res as [rid ruid only]. cbn.
  destruct only; cbn; rewrite ?Hbill; cbn;
    now rewrite ?app_nil_r, <- ?app_assoc.
Qed.

(** A string of decimal digits is read digit by digit. *)
Lemma takeDigits_decimal (s : string) :
  JS.allDecimalDigits s = true ->
  JS.takeDigits 10 s
  = map (fun c => Z.of_N (Ascii.N_of_ascii c) - 48) (list_ascii_of_string s).
Proof.
  induction s as [|c s IH]; [reflexivity|].
  cbn [JS.allDecimalDigits]. intros H. apply andb_true_iff in H as [Hc Hs].
  cbn [list_ascii_of_string map]. rewrite <- (IH Hs). clear IH Hs.
  destruct c as [[] [] [] [] [] [] [] []]; try discriminate Hc; reflexivity.
Qed.

Lemma fold_left_map_digits (f : ascii -> Z) (l : list ascii) (acc : Z) :
  fold_left (fun a d => a * 10 + d) (map f l) acc
  = fold_left (fun a c => a * 10 + f c) l acc.
Proof.
  revert acc. induction l as [|c l IH]; intros acc; [reflexivity|].
  cbn. apply IH.
Qed.

(** [parseInt] of a decimal numeral is the double of its value. *)
Lemma parseInt_decimalValue (s : string) :
  JS.isDecimalNumeral s = true -> JS.parseInt s = JS.toDouble (decimalValue s).
Proof.
  destruct s as [|c s]; [discriminate|].
  unfold JS.isDecimalNumeral. intros Hall.
  pose proof (takeDigits_decimal _ Hall) as Hdigits.
  assert (Hhead : JS.trimStart (String c s) = String c s
                  /\ JS.splitSign (String c s) = (1, String c s)
                  /\ JS.splitRadix (String c s) = (10, String c s)).
  { cbn [JS.allDecimalDigits] in Hall.
    apply andb_true_iff in Hall as [Hc Hs].
    destruct c as [[] [] [] [] [] [] [] []]; try discriminate Hc;
      try (repeat split; reflexivity).
    destruct s as [|d s]; [repeat split; reflexivity|].
    cbn [JS.allDecimalDigits] in Hs. apply andb_true_iff in Hs as [Hd _].
    destruct d as [[] [] [] [] [] [] [] []]; try discriminate Hd;
      repeat split; reflexivity. }
  destruct Hhead as (Htrim & Hsign & Hradix).
  unfold JS.parseInt. rewrite Htrim, Hsign, Hradix, Hdigits.
  cbn [list_ascii_of_string map].
  unfold JS.digitsValue, decimalValue.
  rewrite <- (fold_left_map_digits (fun c0 => Z.of_N (N_of_ascii c0) - 48)).
  cbn [list_ascii_of_string map].
  f_equal. lia.
Qed.

(** Above 2^53 the double is not the value: the numeral of 2^53 + 1 is read
    as 2^53, and a numeral of 2^1024 or more as Infinity. *)
Lemma parseInt_rounds_to_double :
  JS.parseInt "9007199254740993" = JS.Num 9007199254740992
  /\ JS.toDouble (2 ^ 1024) = JS.Infinity.
Proof. split; vm_compute; reflexivity. Qed.

(** X9.  When the [bookingId] parameter is a decimal numeral and the request
    is assembled, the [id] the engine finds in the body is the double nearest
    to the numeral's value, whatever [id] the payload had: the value itself
    when it is at most 2^53.  The value is not negative, and the engine is
    called once. *)
Theorem cancelBooking_decimal_booking_id
    (env : Env) (req : BookingRequest) (bookingId : string)
    (clientId : option string) (st st1 : OAuthRequestParams)
    (next : NextApiBookingRequest) (evs1 : list Event) :
  JS.isDecimalNumeral bookingId = true ->
  createNextApiBookingRequest env (withBodyId req (JS.parseInt bookingId))
    clientId None st = (Returns next, st1, evs1) ->
  id (nextBody next) = Some (JS.toDouble (decimalValue bookingId))
  /\ 0 <= decimalValue bookingId
  /\ (decimalValue bookingId <= 2 ^ 53 ->
      id (nextBody next) = Some (JS.Num (decimalValue bookingId)))
  /\ cancelEngineCalls (trace (cancelBooking env req (Some bookingId) clientId st))
     = [next].
Proof.
  intros Hdec Hnext.
  destruct (createNextApiBookingRequest_returns _ _ _ _ _ _ _ _ Hnext)
    as (owner & oAuthParams & _ & _ & _ & Hshape & Hev).
  destruct (lookups_no_billing _ Hev) as (_ & _ & Hcalls & _).
  assert (Hid : id (nextBody next) = Some (JS.toDouble (decimalValue bookingId)))
    by (rewrite Hshape, (parseInt_decimalValue _ Hdec); reflexivity).
  assert (Hnonneg : 0 <= decimalValue bookingId); [|repeat split; trivial].
  - unfold decimalValue.
    assert (Hpos : forall l acc, 0 <= acc ->
               Forall (fun c => JS.isDecimalDigit c = true) l ->
               0 <= fold_left (fun a c => a * 10 + (Z.of_N (N_of_ascii c) - 48))
                      l acc).
    { induction l as [|c l IH]; intros acc Hacc Hl; [exact Hacc|].
      inversion Hl as [|? ? Hc Hl']; subst. cbn. apply IH; [|exact Hl'].
      unfold JS.isDecimalDigit in Hc. apply andb_true_iff in Hc as [Hlo _].
      apply N.leb_le in Hlo. lia. }
    apply Hpos; [lia|].
    destruct bookingId as [|c s]; [discriminate|].
    unfold JS.isDecimalNumeral in Hdec. revert Hdec.
    generalize (String c s). clear. intros s.
    induction s as [|c s IH]; [constructor|].
    cbn [JS.allDecimalDigits list_ascii_of_string]. intros H.
    apply andb_true_iff in H as [Hc Hs]. constructor; auto.
  - intros Hsmall. rewrite Hid, toDouble_exact; [reflexivity|lia].
  - destruct bookingId as [|c bookingId]; [discriminate|].
    unfold cancelBooking. cbn [JS.whenTruthyStr JS.truthyStr]. run.
    rewrite Hnext. cbn -[cancelEngineCalls].
    destruct (handleCancelBooking env next) as [res|err];
      cbn -[cancelEngineCalls].
    + destruct (onlyRemovedAttendee res); cbn -[cancelEngineCalls];
        [read_trace Hcalls|].
      destruct (cancelUsageByBookingUid env _) as [[]|err];
        cbn -[cancelEngineCalls]; [read_trace Hcalls|].
      rewrite handleBookingErrors_classify.
      cbn -[cancelEngineCalls]. read_trace Hcalls.
    + rewrite handleBookingErrors_classify.
      cbn -[cancelEngineCalls]. read_trace Hcalls.
Qed.

(** ** Recurring bookings and no-shows *)

(** X10.  When the engine resolves with the created bookings,
    [createRecurringBooking] returns them in a success envelope whatever the
    billing service does.  One usage increase is issued for each booking with
    a user id, a uid and a start time, in the order of the list and after the
    engine call, and it never carries [fromReschedule]. *)
Theorem createRecurringBooking_fire_and_forget
    (env : Env) (req : BookingRequest) (clientId : option string)
    (st st1 : OAuthRequestParams) (next : NextApiBookingRequest)
    (evs1 : list Event) (createdBookings : list BookingResponse) :
  createNextApiBookingRequest env req clientId None st
  = (Returns next, st1, evs1) ->
  handleNewRecurringBooking env next = Resolved createdBookings ->
  createRecurringBooking env req clientId st
  = (Returns {| status := "success"; data := createdBookings |}, st1,
     evs1 ++ HandleNewRecurringBooking next :: recurringUsage createdBookings).
Proof.
  intros Hnext Hengine.
  destruct (increaseUsageForEach_run env createdBookings st1)
    as (Hout & Hst & Htr).
  unfold createRecurringBooking; run. rewrite Hnext, Hengine.
  cbn -[increaseUsageForEach].
  unfold outcome, store, trace in *.
  destruct (increaseUsageForEach env createdBookings st1) as [[r st2] evs2].
  cbn in *. subst. unfold recurringUsage.
  now rewrite ?app_nil_r, <- ?app_assoc.
Qed.

(** X11.  [markNoShow] makes one call and no other: [handleMarkNoShow], with
    the booking uid, the attendees and host flag of the payload and the id of
    the authenticated user.  It looks up no owner and no client, calls no
    billing, and leaves the module-level object as it was.  It returns the
    engine's answer in a success envelope, or throws the engine's error as
    [handleBookingErrors] classifies it for the no-show type, so with the
    message "Error while marking no-show." when the error has none. *)
Theorem markNoShow_single_call
    (env : Env) (userId : Z) (attendees : option (list (string * bool)))
    (host : option bool) (bookingUid : string) (st : OAuthRequestParams) :
  let args := {| noShowBookingUid := bookingUid;
                 noShowAttendees := attendees;
                 noShowHost := host;
                 noShowUserId := userId |} in
  markNoShow env userId attendees host bookingUid st
  = (match handleMarkNoShow env args with
     | Resolved response => Returns {| status := "success"; data := response |}
     | Rejected err => Throws (classify err (Some no_show))
     end, st, [HandleMarkNoShow args])
  /\ classify (JsError None) (Some no_show)
     = HttpException "Error while marking no-show." 500.
Proof.
  intros args. split; [|reflexivity]. unfold markNoShow; run. fold args.
  destruct (handleMarkNoShow env args) as [response|err]; cbn -[classify];
    [reflexivity|].
  rewrite handleBookingErrors_classify. reflexivity.
Qed.

(** ** The module-level object across requests *)

Lemma sameBookingLocation_refl (st : OAuthRequestParams) :
  sameBookingLocation st st.
Proof. reflexivity. Qed.

Lemma sameBookingLocation_trans (st1 st2 st3 : OAuthRequestParams) :
  sameBookingLocation st1 st2 -> sameBookingLocation st2 st3 ->
  sameBookingLocation st1 st3.
Proof. unfold sameBookingLocation. congruence. Qed.

Lemma resolveOAuthParams_sameBookingLocation (env : Env)
    (clientId : option string) :
  moves sameBookingLocation (resolveOAuthParams env clientId).
Proof.
  intros st. unfold resolveOAuthParams, getOAuthClientsParams.
  destruct (JS.whenTruthyStr clientId) as [oAuthClientId|]; run;
    [|reflexivity].
  destruct (getOAuthClient env oAuthClientId) as [[client|]|err]; reflexivity.
Qed.

(** X12.  No handler writes the [platformBookingLocation] of the
    module-level object: after [createBooking], [cancelBooking],
    [createRecurringBooking] and [createInstantBooking] it is what it was
    before, so a location given with one request is not kept for the next.
    The request assembled for the engine carries the location it was given. *)
Theorem bookingLocation_never_stored
    (env : Env) (req : BookingRequest) (clientId location : option string)
    (bookingId : option string) (st : OAuthRequestParams) :
  platformBookingLocation (store (createBooking env req clientId st))
  = platformBookingLocation st
  /\ platformBookingLocation (store (cancelBooking env req bookingId clientId st))
     = platformBookingLocation st
  /\ platformBookingLocation (store (createRecurringBooking env req clientId st))
     = platformBookingLocation st
  /\ platformBookingLocation (store (createInstantBooking env req clientId st))
     = platformBookingLocation st
  /\ match createNextApiBookingRequest env req clientId location st with
     | (Returns next, st1, _) =>
         platformBookingLocation (nextParams next) = location
         /\ platformBookingLocation st1 = platformBookingLocation st
     | (Throws _, st1, _) => platformBookingLocation st1 = platformBookingLocation st
     end.
Proof.
  destruct (moves_handlers sameBookingLocation sameBookingLocation_refl
              sameBookingLocation_trans env req clientId
              (resolveOAuthParams_sameBookingLocation env clientId))
    as (H1 & H2 & H3 & H4).
  split; [apply H1|]. split; [apply H2|]. split; [apply H3|]. split; [apply H4|].
  pose proof (moves_createNextApiBookingRequest sameBookingLocation
                sameBookingLocation_refl sameBookingLocation_trans env req
                clientId location
                (resolveOAuthParams_sameBookingLocation env clientId) st) as Hst.
  unfold sameBookingLocation, store in Hst.
  destruct (createNextApiBookingRequest env req clientId location st)
    as [[[next|e] st1] evs1] eqn:Hnext; cbn in Hst; [|exact Hst].
  split; [|exact Hst].
  destruct (createNextApiBookingRequest_returns _ _ _ _ _ _ _ _ Hnext)
    as (owner & oAuthParams & _ & _ & _ & Hshape & _).
  now rewrite Hshape.
Qed.

Lemma resolveOAuthParams_noClientFound (env : Env) (clientId : option string) :
  noClientFound env clientId -> moves eq (resolveOAuthParams env clientId).
Proof.
  intros H st. unfold resolveOAuthParams.
  destruct (JS.whenTruthyStr clientId) as [oAuthClientId|] eqn:Hid;
    [|reflexivity].
  symmetry. apply getOAuthClientsParams_not_found.
  intros client. now apply H.
Qed.

(** X13.  A request without client id, with an empty one, with one that is
    not found or with one whose lookup fails leaves the module-level object
    exactly as it was, whichever handler serves it and however it ends. *)
Theorem handlers_keep_defaults_without_client
    (env : Env) (req : BookingRequest) (clientId bookingId : option string)
    (st : OAuthRequestParams) :
  noClientFound env clientId ->
  store (createBooking env req clientId st) = st
  /\ store (cancelBooking env req bookingId clientId st) = st
  /\ store (createRecurringBooking env req clientId st) = st
  /\ store (createInstantBooking env req clientId st) = st.
Proof.
  intros H.
  destruct (moves_handlers eq (@eq_refl _) (@eq_trans _) env req clientId
              (resolveOAuthParams_noClientFound env clientId H))
    as (H1 & H2 & H3 & H4).
  repeat split; symmetry; [apply H1 | apply H2 | apply H3 | apply H4].
Qed.

(** The owner lookup is the same on every module-level object. *)
Lemma getOwnerId_any_store (env : Env) (req : BookingRequest)
    (st st' : OAuthRequestParams) :
  outcome (getOwnerId env req st') = outcome (getOwnerId env req st)
  /\ trace (getOwnerId env req st') = trace (getOwnerId env req st).
Proof.
  unfold getOwnerId; run.
  destruct (JS.whenTruthyStr _) as [token|]; cbn; [|split; reflexivity].
  destruct (isApiKey _ _); cbn.
  - destruct (getApiKeyFromHash env _) as [key|err]; split; reflexivity.
  - destruct (oAuthFlowGetOwnerId env _) as [err|[owner|err]];
      split; reflexivity.
Qed.

(** X14.  For a request whose client is found, the request assembled for
    the engine and the calls made do not depend on what the requests before
    left in the module-level object: they are the same on any two objects
    that agree on [platformBookingLocation] (which no handler writes). *)
Theorem found_client_independent_of_history
    (env : Env) (req : BookingRequest) (clientId : string)
    (location : option string) (client : OAuthClient)
    (st st' : OAuthRequestParams) :
  JS.truthyStr (Some clientId) = true ->
  getOAuthClient env clientId = Resolved (Some client) ->
  platformBookingLocation st' = platformBookingLocation st ->
  outcome (createNextApiBookingRequest env req (Some clientId) location st')
  = outcome (createNextApiBookingRequest env req (Some clientId) location st)
  /\ trace (createNextApiBookingRequest env req (Some clientId) location st')
     = trace (createNextApiBookingRequest env req (Some clientId) location st).
Proof.
  intros Hid Hfound Hloc.
  destruct (getOwnerId_any_store env req st st') as (Hout & Htr).
  pose proof (getOwnerId_store env req st) as Hst.
  pose proof (getOwnerId_store env req st') as Hst'.
  unfold createNextApiBookingRequest, resolveOAuthParams, JS.whenTruthyStr,
    getOAuthClientsParams.
  rewrite Hid. run. rewrite Hfound.
  unfold outcome, store, trace in *.
  destruct (getOwnerId env req st) as [[r st0] evs0],
    (getOwnerId env req st') as [[r' st0'] evs0'].
  cbn in *. subst.
  destruct r as [owner|e]; [|split; reflexivity].
  cbn. unfold assignClient. rewrite Hloc. split; reflexivity.
Qed.

(** X19.  The assembly of the request throws exactly when the owner lookup
    throws, and then the same value: the client lookup, whether it finds the
    client, finds none or fails, never makes it throw. *)
Theorem createNextApiBookingRequest_throws_iff
    (env : Env) (req : BookingRequest) (clientId location : option string)
    (st : OAuthRequestParams) (e : Thrown) :
  outcome (createNextApiBookingRequest env req clientId location st) = Throws e
  <-> outcome (getOwnerId env req st) = Throws e.
Proof.
  pose proof (getOwnerId_store env req st) as Hst.
  unfold createNextApiBookingRequest, bind at 1.
  unfold outcome, store in *.
  destruct (getOwnerId env req st) as [[[owner|e'] st0] evs0]; cbn in *;
    [|split; intros H; inversion H; reflexivity].
  subst st0.
  pose proof (resolveOAuthParams_returns_defaults env clientId st) as Hres.
  unfold bind, outcome, store in *.
  destruct (resolveOAuthParams env clientId st) as [[r st2] evs2].
  cbn in *. subst r. cbn. split; discriminate.
Qed.

(** ** Credentials *)

(** X15.  Without an Authorization header, with an empty one and with one
    that is only "Bearer ", [getOwnerId] gives undefined without asking the
    key store or token introspection and without logging. *)
Theorem getOwnerId_without_credential
    (env : Env) (req : BookingRequest) (st : OAuthRequestParams) :
  JS.whenTruthyStr (JS.removeFirst "Bearer " <$> authorization req) = None ->
  getOwnerId env req st = (Returns None, st, []).
Proof.
  intros H. unfold getOwnerId. rewrite H. reflexivity.
Qed.

(** Three headers without a credential. *)
Lemma no_credential_headers :
  JS.whenTruthyStr (JS.removeFirst "Bearer " <$> None) = None
  /\ JS.whenTruthyStr (JS.removeFirst "Bearer " <$> Some "") = None
  /\ JS.whenTruthyStr (JS.removeFirst "Bearer " <$> Some "Bearer ") = None.
Proof. repeat split. Qed.

(** ** Assembling the request *)

(** The assembled request does not depend on the [noEmail] the
    payload came with nor on the [userId] already on the request: two requests
    that differ only there are assembled alike, with the same calls. *)
Lemma createNextApiBookingRequest_ignores_noEmail_and_userId
    (env : Env) (req : BookingRequest) (clientId location : option string)
    (st : OAuthRequestParams) (flag : option bool) (user : option Z) :
  createNextApiBookingRequest env
    {| authorization := authorization req;
       forceSlug := forceSlug req;
       body := {| id := id (body req);
                  noEmail := flag;
                  orgSlug := orgSlug (body req);
                  locationUrl := locationUrl (body req);
                  payload := payload (body req) |};
       userId := user |}
    clientId location st
  = createNextApiBookingRequest env req clientId location st.
Proof. reflexivity. Qed.

(** X20.  On a module whose default object still has its initial value, a
    request without client id is assembled with [noEmail] true, the empty
    client id and empty redirect URLs, and with user id -1 when the credential
    has no owner. *)
Theorem createNextApiBookingRequest_defaults
    (env : Env) (req : BookingRequest) (location : option string)
    (next : NextApiBookingRequest) (st1 : OAuthRequestParams)
    (evs1 : list Event) :
  createNextApiBookingRequest env req None location DEFAULT_PLATFORM_PARAMS
  = (Returns next, st1, evs1) ->
  noEmail (nextBody next) = Some true
  /\ nextParams next = withBookingLocation DEFAULT_PLATFORM_PARAMS location
  /\ st1 = DEFAULT_PLATFORM_PARAMS
  /\ (outcome (getOwnerId env req DEFAULT_PLATFORM_PARAMS) = Returns None ->
      nextUserId next = -1).
Proof.
  intros Hnext.
  destruct (createNextApiBookingRequest_returns _ _ _ _ _ _ _ _ Hnext)
    as (owner & oAuthParams & Hown & Hres & Hst & Hshape & _).
  cbn in Hres. inversion Hres; subst oAuthParams. subst st1.
  rewrite Hshape.
  split; [reflexivity|]. split; [reflexivity|]. split; [reflexivity|].
  intros H. rewrite H in Hown. now inversion Hown.
Qed.

(** ** Reading bookings *)

(** X18.  [getBookings] makes one call of [getAllUserBookings], for the
    status of the filters and the authenticated user, with [skip] the given
    cursor, or 0 when none is given, and [take] the given limit, or 10 when
    none is given; a cursor or limit that is given is passed on as it is, 0
    included.  It returns the bookings in a success envelope, and throws a
    rejection of the call as it is. *)
Theorem getBookings_paging_defaults
    (renv : ReadEnv) (user : User) (queryParams : GetBookingsInput) :
  getBookings renv user queryParams
  = match getAllUserBookings renv
            {| bookingListingByStatus := filterStatus (filters queryParams);
               skip := match cursor queryParams with
                       | Some c => c
                       | None => 0
                       end;
               take := match limit queryParams with
                       | Some l => l
                       | None => 10
                       end;
               listingFilters := filters queryParams;
               ctxUserEmail := email user;
               ctxUserId := userRowId user |} with
    | Resolved bookings => Returns {| status := "success"; data := bookings |}
    | Rejected e => Throws e
    end.
Proof.
  unfold getBookings, JS.nullish.
  destruct (cursor queryParams), (limit queryParams); cbn;
    destruct (getAllUserBookings renv _); reflexivity.
Qed.

(** [getBooking] and [getBookingForReschedule] return exactly when the
    lookup resolves with a booking, and then with that booking; when it
    resolves with none they throw the 404 that names the uid; a rejection of
    the lookup leaves them as it is, not as an [HttpException] with status
    500. *)
Lemma booking_lookups
    (renv : ReadEnv) (bookingUid : string) :
  getBooking renv bookingUid
  = match getBookingInfo renv bookingUid with
    | Resolved (Some bookingInfo) =>
        Returns {| status := "success"; data := bookingInfo |}
    | Resolved None =>
        Throws (HttpException
                  ("Booking with UID=" +:+ bookingUid +:+ " does not exist.") 404)
    | Rejected e => Throws e
    end
  /\ getBookingForReschedule renv bookingUid
     = match lookupBookingForReschedule renv bookingUid with
       | Resolved (Some booking) =>
           Returns {| status := "success"; data := booking |}
       | Resolved None =>
           Throws (HttpException
                     ("Booking with UID=" +:+ bookingUid +:+ " does not exist.")
                     404)
       | Rejected e => Throws e
       end.
Proof.
  unfold getBooking, getBookingForReschedule.
  destruct (getBookingInfo renv bookingUid) as [[b|]|e],
    (lookupBookingForReschedule renv bookingUid) as [[b'|]|e'];
    split; reflexivity.
Qed.

(** ** The further theorems at concrete requests *)

(** The engine refuses the slot with 409 "slot taken": that is what
    [createBooking] throws, and billing is not called. *)
Lemma createBooking_engine_failure_witness :
  createBooking (withFailingEngine slotTaken keyedEnv) keyedRequest
    (Some "acme") DEFAULT_PLATFORM_PARAMS
  = (Throws (HttpException "slot taken" 409), acmeParams,
     [GetApiKeyFromHash "sha256:s3cret"; GetOAuthClient "acme";
      HandleNewBooking
        (exampleAssembled (Some "Bearer key_s3cret") (Some "acme-org") None 7
           acmeParams)]).
Proof.
  apply (createBooking_engine_failure (withFailingEngine slotTaken keyedEnv)
           keyedRequest (Some "acme") DEFAULT_PLATFORM_PARAMS acmeParams
           (exampleAssembled (Some "Bearer key_s3cret") (Some "acme-org") None 7
              acmeParams)
           [GetApiKeyFromHash "sha256:s3cret"; GetOAuthClient "acme"] slotTaken);
    [vm_compute; reflexivity | reflexivity].
Defined.

(** The booking is made and the ledger is down: [createBooking] throws 500
    "ledger down". *)
Lemma createBooking_billing_failure_witness :
  createBooking (withFailingBilling ledgerDown keyedEnv) keyedRequest
    (Some "acme") DEFAULT_PLATFORM_PARAMS
  = (Throws (HttpException "ledger down" 500), acmeParams,
     [GetApiKeyFromHash "sha256:s3cret"; GetOAuthClient "acme";
      HandleNewBooking
        (exampleAssembled (Some "Bearer key_s3cret") (Some "acme-org") None 7
           acmeParams);
      IncreaseUsageByUserId 7
        {| usageUid := "abc";
           usageStartTime := 1700003600000;
           usageFromReschedule := Some false |}]).
Proof.
  apply (createBooking_billing_failure (withFailingBilling ledgerDown keyedEnv)
           keyedRequest (Some "acme") DEFAULT_PLATFORM_PARAMS acmeParams
           (exampleAssembled (Some "Bearer key_s3cret") (Some "acme-org") None 7
              acmeParams)
           [GetApiKeyFromHash "sha256:s3cret"; GetOAuthClient "acme"]
           exampleBooking 7 "abc" 1700003600000 ledgerDown);
    [vm_compute; reflexivity | reflexivity | reflexivity | reflexivity
    | reflexivity | reflexivity].
Defined.

(** A booking that succeeds: the response is the engine's booking. *)
Lemma createBooking_success_witness :
  outcome (createBooking keyedEnv keyedRequest (Some "acme")
             DEFAULT_PLATFORM_PARAMS)
  = Returns {| status := "success"; data := exampleBooking |}
  /\ trace (createBooking keyedEnv keyedRequest (Some "acme")
              DEFAULT_PLATFORM_PARAMS)
     = [GetApiKeyFromHash "sha256:s3cret"; GetOAuthClient "acme";
        HandleNewBooking
          (exampleAssembled (Some "Bearer key_s3cret") (Some "acme-org") None 7
             acmeParams);
        IncreaseUsageByUserId 7
          {| usageUid := "abc";
             usageStartTime := 1700003600000;
             usageFromReschedule := Some false |}].
Proof.
  destruct (createBooking_success keyedEnv keyedRequest (Some "acme")
              DEFAULT_PLATFORM_PARAMS acmeParams
              (exampleAssembled (Some "Bearer key_s3cret") (Some "acme-org") None
                 7 acmeParams)
              [GetApiKeyFromHash "sha256:s3cret"; GetOAuthClient "acme"]
              exampleBooking)
    as (Hout & _ & Htrace);
    [vm_compute; reflexivity | reflexivity | intros; reflexivity |].
  split; [exact Hout|]. rewrite Htrace. vm_compute. reflexivity.
Defined.

(** The engine's request for the example booking. *)
Lemma createBooking_engine_request_witness :
  nextForceSlug
    (exampleAssembled (Some "Bearer key_s3cret") (Some "acme-org") None 7
       acmeParams)
  = orgSlug (body keyedRequest)
  /\ platformBookingLocation
       (nextParams
          (exampleAssembled (Some "Bearer key_s3cret") (Some "acme-org") None 7
             acmeParams))
     = locationUrl (body keyedRequest).
Proof.
  destruct (createBooking_engine_request keyedEnv keyedRequest (Some "acme")
              DEFAULT_PLATFORM_PARAMS acmeParams
              (exampleAssembled (Some "Bearer key_s3cret") (Some "acme-org") None
                 7 acmeParams)
              [GetApiKeyFromHash "sha256:s3cret"; GetOAuthClient "acme"])
    as (Hslug & Hloc & _);
    [vm_compute; reflexivity|].
  split; [exact Hslug | exact Hloc].
Defined.

(** The engine does not find booking 42. *)
Lemma cancelBooking_engine_failure_witness :
  cancelBooking (withFailingEngine (JsError None) keyedEnv) keyedRequest
    (Some "42") None DEFAULT_PLATFORM_PARAMS
  = (Throws (HttpException "Error while creating booking." 500),
     DEFAULT_PLATFORM_PARAMS,
     [GetApiKeyFromHash "sha256:s3cret";
      HandleCancelBooking
        (exampleAssembled (Some "Bearer key_s3cret") None (Some (JS.Num 42)) 7
           DEFAULT_PLATFORM_PARAMS)]).
Proof.
  apply (cancelBooking_engine_failure (withFailingEngine (JsError None) keyedEnv)
           keyedRequest "42" None DEFAULT_PLATFORM_PARAMS DEFAULT_PLATFORM_PARAMS
           (exampleAssembled (Some "Bearer key_s3cret") None (Some (JS.Num 42)) 7
              DEFAULT_PLATFORM_PARAMS)
           [GetApiKeyFromHash "sha256:s3cret"] (JsError None));
    [reflexivity | vm_compute; reflexivity | reflexivity].
Defined.

(** Booking 42 is cancelled as a whole. *)
Lemma cancelBooking_success_witness :
  cancelBooking keyedEnv keyedRequest (Some "42") None DEFAULT_PLATFORM_PARAMS
  = (Returns {| status := "success"; data := exampleCancelResult |},
     DEFAULT_PLATFORM_PARAMS,
     [GetApiKeyFromHash "sha256:s3cret";
      HandleCancelBooking
        (exampleAssembled (Some "Bearer key_s3cret") None (Some (JS.Num 42)) 7
           DEFAULT_PLATFORM_PARAMS);
      CancelUsageByBookingUid "abc"]).
Proof.
  apply (cancelBooking_success keyedEnv keyedRequest "42" None
           DEFAULT_PLATFORM_PARAMS DEFAULT_PLATFORM_PARAMS
           (exampleAssembled (Some "Bearer key_s3cret") None (Some (JS.Num 42)) 7
              DEFAULT_PLATFORM_PARAMS)
           [GetApiKeyFromHash "sha256:s3cret"] exampleCancelResult);
    [reflexivity | vm_compute; reflexivity | reflexivity | intros; reflexivity].
Defined.

(** The booking id "0042" is read as 42. *)
Lemma cancelBooking_decimal_booking_id_witness :
  JS.isDecimalNumeral "0042" = true
  /\ id (nextBody (exampleAssembled None None (Some (JS.Num 42)) (-1)
                     DEFAULT_PLATFORM_PARAMS))
     = Some (JS.Num (decimalValue "0042"))
  /\ cancelEngineCalls
       (trace (cancelBooking plainEnv plainRequest (Some "0042") None
                 DEFAULT_PLATFORM_PARAMS))
     = [exampleAssembled None None (Some (JS.Num 42)) (-1)
          DEFAULT_PLATFORM_PARAMS].
Proof.
  split; [reflexivity|].
  destruct (cancelBooking_decimal_booking_id plainEnv plainRequest "0042" None
              DEFAULT_PLATFORM_PARAMS DEFAULT_PLATFORM_PARAMS
              (exampleAssembled None None (Some (JS.Num 42)) (-1)
                 DEFAULT_PLATFORM_PARAMS) [])
    as (_ & _ & Hexact & Hcalls);
    [reflexivity | vm_compute; reflexivity |].
  split; [apply Hexact; vm_compute; discriminate | exact Hcalls].
Defined.

(** The ledger is down and the recurring booking still succeeds. *)
Lemma createRecurringBooking_fire_and_forget_witness :
  createRecurringBooking (withFailingBilling ledgerDown keyedEnv) keyedRequest
    None DEFAULT_PLATFORM_PARAMS
  = (Returns {| status := "success"; data := [exampleBooking] |},
     DEFAULT_PLATFORM_PARAMS,
     [GetApiKeyFromHash "sha256:s3cret";
      HandleNewRecurringBooking
        (exampleAssembled (Some "Bearer key_s3cret") None None 7
           DEFAULT_PLATFORM_PARAMS);
      IncreaseUsageByUserId 7
        {| usageUid := "abc";
           usageStartTime := 1700003600000;
           usageFromReschedule := None |}]).
Proof.
  apply (createRecurringBooking_fire_and_forget
           (withFailingBilling ledgerDown keyedEnv) keyedRequest None
           DEFAULT_PLATFORM_PARAMS DEFAULT_PLATFORM_PARAMS
           (exampleAssembled (Some "Bearer key_s3cret") None None 7
              DEFAULT_PLATFORM_PARAMS)
           [GetApiKeyFromHash "sha256:s3cret"] [exampleBooking]);
    [vm_compute; reflexivity | reflexivity].
Defined.

(** The directory fails for the client "down": what acme left in the
    module-level object stays there. *)
Lemma handlers_keep_defaults_without_client_witness :
  store (createBooking plainEnv plainRequest (Some "down") acmeParams)
  = acmeParams
  /\ store (cancelBooking plainEnv plainRequest (Some "42") (Some "down")
              acmeParams)
     = acmeParams.
Proof.
  destruct (handlers_keep_defaults_without_client plainEnv plainRequest
              (Some "down") (Some "42") acmeParams)
    as (H1 & H2 & _).
  - intros oAuthClientId client H. inversion H; subst. discriminate.
  - split; [exact H1 | exact H2].
Defined.

(** A request for "acme" after one for "bare" and on a fresh module. *)
Lemma found_client_independent_of_history_witness :
  outcome (createNextApiBookingRequest twoClientsEnv plainRequest (Some "acme")
             None (assignClient "bare" bareClient DEFAULT_PLATFORM_PARAMS))
  = outcome (createNextApiBookingRequest twoClientsEnv plainRequest
               (Some "acme") None DEFAULT_PLATFORM_PARAMS).
Proof.
  apply (found_client_independent_of_history twoClientsEnv plainRequest "acme"
           None exampleClient DEFAULT_PLATFORM_PARAMS
           (assignClient "bare" bareClient DEFAULT_PLATFORM_PARAMS));
    reflexivity.
Defined.

(** The header "Bearer " carries no credential. *)
Lemma getOwnerId_without_credential_witness :
  getOwnerId keyedEnv (exampleRequest (Some "Bearer ")) DEFAULT_PLATFORM_PARAMS
  = (Returns None, DEFAULT_PLATFORM_PARAMS, []).
Proof.
  apply (getOwnerId_without_credential keyedEnv (exampleRequest (Some "Bearer "))
           DEFAULT_PLATFORM_PARAMS).
  reflexivity.
Defined.

(** Token introspection that resolves: the owner lookup returns. *)
Lemma getOwnerId_returns_unless_rejected_witness :
  exists owner,
    outcome (getOwnerId plainEnv (exampleRequest (Some "Bearer access-token"))
               DEFAULT_PLATFORM_PARAMS)
    = Returns owner.
Proof.
  apply (getOwnerId_returns_unless_rejected plainEnv
           (exampleRequest (Some "Bearer access-token")) DEFAULT_PLATFORM_PARAMS).
  intros token e. discriminate.
Defined.

(** The stored key "key_s3cret" under the prefix "key_". *)
Lemma getOwnerId_api_key_agreeing_config_witness :
  getOwnerId keyedEnv keyedRequest DEFAULT_PLATFORM_PARAMS
  = (Returns (Some 7), DEFAULT_PLATFORM_PARAMS,
     [GetApiKeyFromHash "sha256:s3cret"]).
Proof.
  apply (getOwnerId_api_key_agreeing_config keyedEnv keyedRequest
           DEFAULT_PLATFORM_PARAMS "key_" "s3cret");
    [reflexivity | reflexivity | discriminate | reflexivity].
Defined.

(** A request without credentials and without client id on a fresh module. *)
Lemma createNextApiBookingRequest_defaults_witness :
  noEmail (nextBody (exampleAssembled None None None (-1) DEFAULT_PLATFORM_PARAMS))
  = Some true
  /\ nextUserId (exampleAssembled None None None (-1) DEFAULT_PLATFORM_PARAMS)
     = -1.
Proof.
  destruct (createNextApiBookingRequest_defaults plainEnv plainRequest None
              (exampleAssembled None None None (-1) DEFAULT_PLATFORM_PARAMS)
              DEFAULT_PLATFORM_PARAMS [])
    as (Hmail & _ & _ & Huser);
    [vm_compute; reflexivity|].
  split; [exact Hmail | apply Huser; reflexivity].
Defined.
